(** * searchLAADS: the query planner and the URL list writer

    A shallow embedding of [searchlaads/searchLAADS.py].

    The module is Python 2 code (it imports [urllib2] and [SOAPpy], and
    indents with tabs inside space-indented blocks), so the operator [/]
    between two [int]s is floor division and [math.ceil] returns a float.

    Conventions of the embedding:
    - a Python number is an [int] (a [Z]) or a [float]; floats are
      idealised as exact rationals kept in lowest terms: an operation on
      floats gives the exact result, where the interpreter rounds it to
      binary64, so rounding, infinities and NaN are outside the model.
      Arithmetic on two [int]s is exact in the interpreter as well.  The
      theorems that compare the tile count of an extent with the one of
      the design, or give the width of a chunk in weeks, are therefore
      stated on extents given in whole degrees and on the cap of the
      class, 1000, where the rounded and the exact quotients round up to
      the same whole number;
    - a [datetime] is its number of microseconds since 0001-01-01 00:00,
      and adding a [timedelta] raises [OverflowError] outside the years
      1..9999, as the interpreter does;
    - a call either returns, raises, or runs forever ([outcome]);
    - the SOAP server is an interface with the two remote calls
      [searchFiles] makes; the calls answer (network failures are outside
      the model) and every call made is recorded in the [world];
    - the file system is a finite map from paths to nodes, and the
      directory that is to hold a new file is taken to exist. *)

From Stdlib Require Import ZArith QArith Qabs Qround Qcanon Lia.
From stdpp Require Import gmap strings list.

Local Open Scope Z_scope.

(** ** Outcomes of a call *)

Inductive exn : Type :=
| ZeroDivisionError
| OverflowError
| IOError.

Inductive outcome (A : Type) : Type :=
| Returns (a : A)
| Raises (e : exn)
| Diverges.

Arguments Returns {A} a.
Arguments Raises {A} e.
Arguments Diverges {A}.

Definition obind {A B : Type} (m : outcome A) (k : A -> outcome B) : outcome B :=
  match m with
  | Returns a => k a
  | Raises e => Raises e
  | Diverges => Diverges
  end.

Notation "'let*' x ':=' m 'in' k" := (obind m (fun x => k))
  (at level 10, x name, m at level 100, k at level 200).

(** ** Python numbers *)

Inductive num : Type :=
| PyInt (z : Z)
| PyFloat (q : Q).

Definition to_Q (x : num) : Q :=
  match x with
  | PyInt z => inject_Z z
  | PyFloat q => q
  end.

Definition py_float (q : Q) : num := PyFloat (Qred q).

Definition py_is_zero (x : num) : bool :=
  match x with
  | PyInt z => z =? 0
  | PyFloat q => Qnum q =? 0
  end.

(** [a - b]: an int when both are ints, a float otherwise.  The float
    is the exact difference; the interpreter rounds it to binary64. *)
Definition py_sub (a b : num) : num :=
  match a, b with
  | PyInt x, PyInt y => PyInt (x - y)
  | _, _ => py_float (to_Q a - to_Q b)
  end.

Definition py_mul (a b : num) : num :=
  match a, b with
  | PyInt x, PyInt y => PyInt (x * y)
  | _, _ => py_float (to_Q a * to_Q b)
  end.

(** [a / b] in Python 2: floor division on two ints, true division as
    soon as one operand is a float; a zero divisor raises.  The float is
    the exact quotient; the interpreter rounds it to binary64. *)
Definition py_div (a b : num) : outcome num :=
  if py_is_zero b then Raises ZeroDivisionError
  else match a, b with
       | PyInt x, PyInt y => Returns (PyInt (x / y))
       | _, _ => Returns (py_float (to_Q a / to_Q b))
       end.

Definition py_abs (a : num) : num :=
  match a with
  | PyInt z => PyInt (Z.abs z)
  | PyFloat q => py_float (Qabs q)
  end.

(** [math.ceil] returns a float, also on an int. *)
Definition math_ceil (a : num) : num :=
  PyFloat (inject_Z (Qceiling (to_Q a))).

(** ** Dates *)

Definition datetime : Type := Z.
Definition timedelta : Type := Z.

Definition us_per_second : Z := 1000000.
Definition us_per_week : Z := 7 * 24 * 3600 * us_per_second.

(** 9999-12-31 23:59:59.999999, the last value of [datetime]:
    3652059 days from 0001-01-01 on. *)
Definition datetime_max : Z := 3652059 * 24 * 3600 * us_per_second - 1.

Definition datetime_sub (a b : datetime) : timedelta := a - b.

Definition datetime_add (d : datetime) (t : timedelta) : outcome datetime :=
  let r := d + t in
  if (0 <=? r) && (r <=? datetime_max) then Returns r
  else Raises OverflowError.

Definition total_seconds (t : timedelta) : num :=
  py_float (inject_Z t / inject_Z us_per_second).

(** Rounding to the nearest integer, ties to even: how [timedelta]
    turns a fractional argument into microseconds. *)
Definition round_half_even (q : Q) : Z :=
  let f := Qfloor q in
  match (q - inject_Z f ?= 1 # 2)%Q with
  | Lt => f
  | Gt => f + 1
  | Eq => if Z.even f then f else f + 1
  end.

(** [timedelta(weeks = w)] *)
Definition timedelta_weeks (w : num) : timedelta :=
  round_half_even (to_Q w * inject_Z us_per_week).

(** ** The session object *)

Definition chunk : Type := (datetime * datetime)%type.

Record searchLAADS : Type := {
  product : string;
  collection : string;
  stime : datetime;
  etime : datetime;
  bbox : num * num * num * num;
  cot : string;
  dnb : string;
  fileURLs : list string;
  (* class attribute, 1000 unless overridden *)
  LAADSmaxFiles : Z
}.

Definition bbox_0 (self : searchLAADS) : num := let '(a, _, _, _) := bbox self in a.
Definition bbox_1 (self : searchLAADS) : num := let '(_, b, _, _) := bbox self in b.
Definition bbox_2 (self : searchLAADS) : num := let '(_, _, c, _) := bbox self in c.
Definition bbox_3 (self : searchLAADS) : num := let '(_, _, _, d) := bbox self in d.

(** ** The extent estimator *)

Definition numTilesForBbox (self : searchLAADS) : outcome num :=
  let* numlat := py_div (py_sub (bbox_2 self) (bbox_3 self)) (PyInt 20) in
  let* numlon := py_div (py_sub (bbox_0 self) (bbox_1 self)) (PyInt 20) in
  Returns (py_mul (py_mul (py_mul (math_ceil (py_abs numlat)) (PyInt 2))
                          (math_ceil (py_abs numlon)))
                  (PyInt 2)).

(** ** The chunk planner *)

Definition estimNumFiles (self : searchLAADS) : outcome num :=
  let* deltaHours :=
    py_div (total_seconds (datetime_sub (etime self) (stime self))) (PyInt 3600) in
  let* numDaysNights := py_div deltaHours (PyInt 12) in
  let* tiles := numTilesForBbox self in
  Returns (py_mul numDaysNights tiles).

(** The body of [while chunkStime < self.etime] in [timeChunks].  The
    recursion is on a bound for the number of passes; [Diverges] is what
    the loop does when the bound runs out with the guard still true. *)
Fixpoint chunk_loop (fuel : nat) (self : searchLAADS) (chunkWeeks : num)
    (chunkStime : datetime) (chunkList : list chunk) : outcome (list chunk) :=
  if chunkStime <? etime self then
    match fuel with
    | O => Diverges
    | S fuel' =>
        let* chunkEtime := datetime_add chunkStime (timedelta_weeks chunkWeeks) in
        let chunkList' :=
          if chunkEtime <? etime self
          then chunkList ++ [(chunkStime, chunkEtime)]
          else chunkList ++ [(chunkStime, etime self)] in
        chunk_loop fuel' self chunkWeeks chunkEtime chunkList'
    end
  else Returns chunkList.

(** A number of passes that is enough whenever the loop ends: walking
    forward it ends once [etime] is reached, walking backward it ends
    with the overflow below the first date; with a zero step it never
    ends. *)
Definition loop_bound (self : searchLAADS) (chunkWeeks : num) : nat :=
  let step := timedelta_weeks chunkWeeks in
  if 0 <? step then Z.to_nat ((etime self - stime self) / step) + 1
  else if step <? 0 then Z.to_nat (stime self / (- step)) + 1
  else 0%nat.

Definition timeChunks (self : searchLAADS) : outcome (list chunk) :=
  let* numFiles := estimNumFiles self in
  let* numChunks := py_div numFiles (PyInt (LAADSmaxFiles self)) in
  let* deltaHours :=
    py_div (total_seconds (datetime_sub (etime self) (stime self))) (PyInt 3600) in
  let* chunkHours := py_div deltaHours numChunks in
  let* weeks := py_div chunkHours (PyInt (7 * 24)) in
  let chunkWeeks := math_ceil weeks in
  chunk_loop (loop_bound self chunkWeeks) self chunkWeeks (stime self) [].

(** ** The world outside the object *)

(** What the class prints: the two lines of [searchFiles] and the two
    lines of [dumpURLs]. *)
Inductive message : Type :=
| MsgManyFiles
| MsgSearching
| MsgNoURLs
| MsgFileExists.

Record query : Type := {
  q_products : string;
  q_collection : string;
  q_startTime : string;
  q_endTime : string;
  q_north : num;
  q_south : num;
  q_east : num;
  q_west : num;
  q_coordsOrTiles : string;
  q_dayNightBoth : string
}.

Inductive call : Type :=
| CallSearchForFiles (q : query)
| CallGetFileUrls (fileIds : string).

Inductive node : Type :=
| File (content : string)
| Directory.

Record world : Type := {
  fs : gmap string node;
  stdout : list message;
  calls : list call
}.

Definition M (A : Type) : Type := world -> outcome A * world.

Definition mret {A : Type} (a : A) : M A := fun w => (Returns a, w).

Definition mbind {A B : Type} (m : M A) (k : A -> M B) : M B :=
  fun w =>
    match m w with
    | (Returns a, w') => k a w'
    | (Raises e, w') => (Raises e, w')
    | (Diverges, w') => (Diverges, w')
    end.

Definition mlift {A : Type} (o : outcome A) : M A := fun w => (o, w).

Notation "'do*' x ':=' m 'in' k" := (mbind m (fun x => k))
  (at level 10, x name, m at level 100, k at level 200).
Notation "'exec' m 'in' k" := (mbind m (fun _ => k))
  (at level 10, m at level 100, k at level 200).

Definition print (m : message) : M unit :=
  fun w => (Returns tt, {| fs := fs w; stdout := stdout w ++ [m]; calls := calls w |}).

(** ** The catalog server *)

Class Server : Type := {
  searchForFiles : query -> list string;
  getFileUrls : string -> list string
}.

Definition server_searchForFiles `{Server} (q : query) : M (list string) :=
  fun w => (Returns (searchForFiles q),
            {| fs := fs w; stdout := stdout w;
               calls := calls w ++ [CallSearchForFiles q] |}).

Definition server_getFileUrls `{Server} (fileIds : string) : M (list string) :=
  fun w => (Returns (getFileUrls fileIds),
            {| fs := fs w; stdout := stdout w;
               calls := calls w ++ [CallGetFileUrls fileIds] |}).

Definition set_fileURLs (self : searchLAADS) (urls : list string) : searchLAADS :=
  {| product := product self; collection := collection self;
     stime := stime self; etime := etime self; bbox := bbox self;
     cot := cot self; dnb := dnb self; fileURLs := urls;
     LAADSmaxFiles := LAADSmaxFiles self |}.

(** [","].join(IDs) *)
Definition join (sep : string) (l : list string) : string := String.concat sep l.

Section Orchestrator.

Context `{Server}.

(** [datetime.strftime] with the pattern of [searchFiles],
    year-month-day hour:minute, taken as a total function of the date. *)
Variable strftime : datetime -> string.

Definition chunk_query (self : searchLAADS) (c : chunk) : query :=
  let '(north, south, west, east) := bbox self in
  {| q_products := product self; q_collection := collection self;
     q_startTime := strftime (fst c); q_endTime := strftime (snd c);
     q_north := north; q_south := south; q_east := east; q_west := west;
     q_coordsOrTiles := cot self; q_dayNightBoth := dnb self |}.

(** The two remote calls one chunk costs. *)
Definition chunk_calls (self : searchLAADS) (c : chunk) : list call :=
  [CallSearchForFiles (chunk_query self c);
   CallGetFileUrls (join "," (searchForFiles (chunk_query self c)))].

(** One pass of [for i in tqdm(range(len(tchunks)))]. *)
Definition searchFiles_body (self : searchLAADS) (c : chunk) : M searchLAADS :=
  do* IDs := server_searchForFiles (chunk_query self c) in
  let IDsFilestring := join "," IDs in
  do* URLs := server_getFileUrls IDsFilestring in
  mret (set_fileURLs self (fileURLs self ++ URLs)).

Fixpoint searchFiles_loop (self : searchLAADS) (tchunks : list chunk) : M searchLAADS :=
  match tchunks with
  | [] => mret self
  | c :: rest =>
      do* self' := searchFiles_body self c in
      searchFiles_loop self' rest
  end.

Definition searchFiles (self : searchLAADS) : M searchLAADS :=
  do* tchunks := mlift (timeChunks self) in
  exec (if (1 <? length tchunks)%nat then print MsgManyFiles else print MsgSearching) in
  searchFiles_loop self tchunks.

End Orchestrator.

(** ** Writing the URL list *)

Definition os_path_isfile (fname : string) : M bool :=
  fun w => (Returns (match fs w !! fname with
                     | Some (File _) => true
                     | _ => false
                     end), w).

(** [open(fname, "w")]: creates the file or empties it; a directory
    cannot be opened for writing. *)
Definition open_w (fname : string) : M unit :=
  fun w =>
    match fs w !! fname with
    | Some Directory => (Raises IOError, w)
    | _ => (Returns tt, {| fs := <[fname := File EmptyString]> (fs w);
                           stdout := stdout w; calls := calls w |})
    end.

(** [f.write(s)] on the file opened at [fname]. *)
Definition file_write (fname : string) (s : string) : M unit :=
  fun w =>
    match fs w !! fname with
    | Some (File content) =>
        (Returns tt, {| fs := <[fname := File (content +:+ s)]> (fs w);
                        stdout := stdout w; calls := calls w |})
    | _ => (Raises IOError, w)
    end.

Definition newline : string := String (Ascii.ascii_of_nat 10) EmptyString.

Fixpoint write_lines (fname : string) (urls : list string) : M unit :=
  match urls with
  | [] => mret tt
  | i :: rest => exec file_write fname (i +:+ newline) in write_lines fname rest
  end.

Definition dumpURLs (self : searchLAADS) (fname : string) (replace : bool) : M unit :=
  if (length (fileURLs self) <? 1)%nat then print MsgNoURLs
  else
    do* isfile := os_path_isfile fname in
    if isfile && negb replace then print MsgFileExists
    else exec open_w fname in write_lines fname (fileURLs self).

(** ** Where the downloads go *)

(** The strings of Python 2 are byte strings; the paths are those of a
    POSIX system ([os.path] is [posixpath]). *)

Definition slash : Ascii.ascii := Ascii.ascii_of_nat 47.
Definition dot : Ascii.ascii := Ascii.ascii_of_nat 46.

(** [s.rfind(c)]: the index of the last [c] in [s], -1 when there is none. *)
Fixpoint str_rfind (c : Ascii.ascii) (s : string) : Z :=
  match s with
  | EmptyString => -1
  | String a rest =>
      let i := str_rfind c rest in
      if 0 <=? i then i + 1 else if Ascii.eqb a c then 0 else -1
  end.

(** [s[i:]] *)
Fixpoint str_from (i : nat) (s : string) : string :=
  match i, s with
  | O, _ => s
  | S _, EmptyString => EmptyString
  | S i', String _ rest => str_from i' rest
  end.

(** [s[i:j]], for [i <= j] *)
Definition str_slice (i j : nat) (s : string) : string := String.substring i (j - i) s.

(** [s.split(sep)] on a separator of one character. *)
Fixpoint str_split (sep : Ascii.ascii) (s : string) : list string :=
  match s with
  | EmptyString => [EmptyString]
  | String c rest =>
      if Ascii.eqb c sep then EmptyString :: str_split sep rest
      else match str_split sep rest with
           | h :: t => String c h :: t
           | [] => [String c EmptyString]
           end
  end.

Definition str_startswith (c : Ascii.ascii) (s : string) : bool :=
  match s with
  | String a _ => Ascii.eqb a c
  | EmptyString => false
  end.

Fixpoint str_endswith (c : Ascii.ascii) (s : string) : bool :=
  match s with
  | EmptyString => false
  | String a EmptyString => Ascii.eqb a c
  | String _ rest => str_endswith c rest
  end.

Definition str_empty (s : string) : bool :=
  match s with
  | EmptyString => true
  | String _ _ => false
  end.

(** [os.path.basename]: what follows the last slash. *)
Definition os_path_basename (p : string) : string :=
  str_from (Z.to_nat (str_rfind slash p + 1)) p.

(** [os.path.join] of two parts. *)
Definition os_path_join (a b : string) : string :=
  if str_startswith slash b then b
  else if str_empty a || str_endswith slash a then a +:+ b
  else a +:+ String slash b.

(** The one error [pathTuple] can raise by itself. *)
Inductive tried (A : Type) : Type :=
| Fine (a : A)
| RaisesIndexError.

Arguments Fine {A} a.
Arguments RaisesIndexError {A}.

(** [pathTuple] of [downloadFiles]: a URL with the directory its file
    goes to, the base directory and under it the year read off the
    second field of the file name. *)
Definition pathTuple (directory url : string) : tried (string * string) :=
  match str_split dot (os_path_basename url) !! 1%nat with
  | None => RaisesIndexError
  | Some secfield =>
      let year := str_slice 1 5 secfield in
      let outdir := os_path_join directory year in
      Fine (url, outdir)
  end.

(** [list(map(pathTuple, self.fileURLs))] *)
Fixpoint pathList (directory : string) (urls : list string) : tried (list (string * string)) :=
  match urls with
  | [] => Fine []
  | url :: rest =>
      match pathTuple directory url with
      | RaisesIndexError => RaisesIndexError
      | Fine t =>
          match pathList directory rest with
          | RaisesIndexError => RaisesIndexError
          | Fine l => Fine (t :: l)
          end
      end
  end.

(** The path [download] opens for writing: the name of the file under
    the directory of the pair. *)
Definition download_fpath (itemtuple : string * string) : string :=
  let url := fst itemtuple in
  let directory := snd itemtuple in
  let fname := os_path_basename url in
  os_path_join directory fname.

(** Whether a character occurs in a string. *)
Fixpoint has_char (c : Ascii.ascii) (s : string) : bool :=
  match s with
  | EmptyString => false
  | String a rest => Ascii.eqb a c || has_char c rest
  end.

(** ** Vocabulary of the properties *)

(** The chunks a walk from [s] emits, with steps of [step] microseconds,
    up to the end [e] of the range: the loop of [timeChunks] seen as a
    relation. *)
Inductive walk (step : Z) (e : datetime) : datetime -> list chunk -> Prop :=
| walk_done s :
    e <= s -> walk step e s []
| walk_step s l :
    s < e ->
    walk step e (s + step) l ->
    walk step e s ((s, if s + step <? e then s + step else e) :: l).

(** Each chunk ends where the next one starts. *)
Definition contiguous (l : list chunk) : Prop :=
  forall (i : nat) (c c' : chunk),
    l !! i = Some c -> l !! S i = Some c' -> snd c = fst c'.

(** The chunks of [l] tile the range from [s] to [e]: the first starts
    at [s], the last ends at [e], neighbours touch, and every chunk runs
    forward, so that nothing is left out and nothing is covered twice. *)
Definition covers (s e : datetime) (l : list chunk) : Prop :=
  fst <$> head l = Some s /\
  snd <$> last l = Some e /\
  contiguous l /\
  Forall (fun c => fst c < snd c) l.

(** The tile count in the words of the design: the two spans by absolute
    value, each divided by 20 and rounded up, each doubled. *)
Definition tileCount_spec (north south west east : Q) : Z :=
  Qceiling (Qabs (north - south) / 20) * 2 * Qceiling (Qabs (west - east) / 20) * 2.

(** [x / 20] never raises. *)
Definition quot20 (x : num) : num :=
  match x with
  | PyInt z => PyInt (z / 20)
  | PyFloat q => py_float (q / 20)
  end.

(** The factor one pair of bounds contributes before doubling. *)
Definition cells (a b : num) : Z := Qceiling (to_Q (py_abs (quot20 (py_sub a b)))).

(** A pair of bounds on which the division by 20 of the model loses
    nothing: one of the two is a float (and the quotient is the exact
    one), or the two ints are a multiple of 20 apart. *)
Definition exact_span (a b : num) : Prop :=
  match a, b with
  | PyInt x, PyInt y => (20 | x - y)
  | _, _ => True
  end.

(** The width of a chunk in weeks, as the planner ends up computing it
    in exact arithmetic: the span of the range cancels out, and what is
    left is the cap over fourteen times the tile count, rounded up. *)
Definition chunkWeeks_of (self : searchLAADS) (tiles : num) : num :=
  PyFloat (inject_Z (Qceiling (inject_Z (LAADSmaxFiles self) / (14 * to_Q tiles)))).

(** An extent given in whole degrees, as four [int]s, none of them
    beyond a full turn.  On such an extent the estimator works on ints
    and on small whole floats only, which the interpreter holds exactly,
    as the model does. *)
Definition whole_degrees (self : searchLAADS) (north south west east : Z) : Prop :=
  bbox self = (PyInt north, PyInt south, PyInt west, PyInt east) /\
  Z.abs north <= 360 /\ Z.abs south <= 360 /\
  Z.abs west <= 360 /\ Z.abs east <= 360.

(** The text of the file [dumpURLs] writes: one URL a line. *)
Fixpoint url_lines (urls : list string) : string :=
  match urls with
  | [] => EmptyString
  | i :: rest => (i +:+ newline) +:+ url_lines rest
  end.

(** The URLs the catalog resolves for a list of chunks, chunk by chunk. *)
Definition chunk_urls `{Server} (strftime : datetime -> string)
    (self : searchLAADS) (tchunks : list chunk) : list string :=
  flat_map (fun c => getFileUrls (join "," (searchForFiles (chunk_query strftime self c))))
           tchunks.

(** ** Sample sessions *)

Definition us_per_day : Z := 24 * 3600 * us_per_second.

Definition session (s e : datetime) (b : num * num * num * num) : searchLAADS :=
  {| product := "MOD35_L2"; collection := "6"; stime := s; etime := e;
     bbox := b; cot := "coords"; dnb := "DNB"; fileURLs := [];
     LAADSmaxFiles := 1000 |}.

(** 2020-01-01 00:00 is day 737424 of the calendar (day 0 is 0001-01-01). *)
Definition jan_2020 : datetime := 737424 * us_per_day.
Definition mar_2020 : datetime := 737484 * us_per_day.
Definition jan_2022 : datetime := 738155 * us_per_day.

Definition box_40_20 : num * num * num * num :=
  (PyInt 40, PyInt 20, PyInt (-100), PyInt (-80)).

(** A formatting of dates that tells nothing, for the samples. *)
Definition no_format : datetime -> string := fun _ => EmptyString.

Definition empty_world : world := {| fs := ∅; stdout := []; calls := [] |}.

(** A catalog that finds nothing. *)
Definition empty_catalog : Server :=
  {| searchForFiles := fun _ => []; getFileUrls := fun _ => [] |}.

(** A catalog that finds two files in every window and resolves an
    identifier string to one URL by file. *)
Definition sample_catalog : Server :=
  {| searchForFiles := fun _ => ["11"; "12"];
     getFileUrls := fun fileIds =>
       ["ftp://host/MOD35_L2.A2020001.0000.006.hdf";
        "ftp://host/MOD35_L2.A2020001.0005.006.hdf"] |}.

(** The calls a list of calls holds to the URL resolution. *)
Definition resolve_called (cs : list call) : Prop :=
  exists fileIds, CallGetFileUrls fileIds ∈ cs.

(** ** The walk of the planner *)

Lemma contiguous_nil : contiguous [].
Proof. intros i c c' Hi; rewrite lookup_nil in Hi; discriminate. Qed.

Lemma contiguous_singleton (c : chunk) : contiguous [c].
Proof. intros i c1 c2 _ Hi; simpl in Hi; rewrite lookup_nil in Hi; discriminate. Qed.

Lemma contiguous_cons (c c' : chunk) (l : list chunk) :
  snd c = fst c' -> contiguous (c' :: l) -> contiguous (c :: c' :: l).
Proof.
  intros Hc Hl [|i] c1 c2 H1 H2; simpl in *.
  - congruence.
  - exact (Hl i c1 c2 H1 H2).
Qed.

(** A walk that reached the end emits nothing more. *)
Lemma walk_past_end (step : Z) (e s : datetime) (l : list chunk) :
  walk step e s l -> e <= s -> l = [].
Proof. intros Hw Hle; inversion Hw; subst; [reflexivity | lia]. Qed.

(** Only a forward step lets the walk end. *)
Lemma walk_forward (step : Z) (e s : datetime) (l : list chunk) :
  walk step e s l -> s < e -> 0 < step.
Proof.
  induction 1 as [s Hle | s l Hlt Hw IH]; intros Hs; [lia|].
  destruct (Z_lt_dec 0 step) as [Hpos | Hneg]; [exact Hpos|].
  apply IH; lia.
Qed.

Lemma walk_covers (step : Z) (e s : datetime) (l : list chunk) :
  walk step e s l -> s < e -> covers s e l.
Proof.
  intros Hw Hs. pose proof (walk_forward _ _ _ _ Hw Hs) as Hstep.
  induction Hw as [s Hle | s l Hlt Hw IH]; [lia|].
  destruct (Z.ltb_spec (s + step) e) as [Hin | Hout].
  - destruct (IH Hin) as (Hhd & Hlast & Hcont & Hall).
    destruct l as [|c' l]; [discriminate Hhd|].
    simpl in Hhd. injection Hhd as Hc'.
    repeat split.
    + rewrite last_cons_cons. exact Hlast.
    + apply contiguous_cons; [simpl; lia | exact Hcont].
    + constructor; [simpl; lia | exact Hall].
  - rewrite (walk_past_end _ _ _ _ Hw Hout).
    repeat split.
    + apply contiguous_singleton.
    + constructor; [simpl; lia | constructor].
Qed.

(** Every chunk of a walk but the last is one step wide. *)
Lemma walk_widths (step : Z) (e s : datetime) (l : list chunk) :
  walk step e s l ->
  forall (i : nat) (c : chunk),
    l !! i = Some c -> (S i < length l)%nat -> snd c - fst c = step.
Proof.
  induction 1 as [s Hle | s l Hlt Hw IH]; intros i c Hi Hlen.
  - rewrite lookup_nil in Hi; discriminate.
  - destruct i as [|i]; simpl in *.
    + injection Hi as <-. simpl.
      destruct (Z.ltb_spec (s + step) e) as [Hin | Hout]; [lia|].
      rewrite (walk_past_end _ _ _ _ Hw Hout) in Hlen. simpl in Hlen. lia.
    + apply (IH i c Hi). lia.
Qed.

(** The loop computes a walk and appends it to the list it was given. *)
Lemma chunk_loop_walk (fuel : nat) (self : searchLAADS) (w : num) :
  forall (s : datetime) (acc l : list chunk),
    chunk_loop fuel self w s acc = Returns l ->
    exists tail, l = acc ++ tail /\ walk (timedelta_weeks w) (etime self) s tail.
Proof.
  induction fuel as [|fuel IH]; intros s acc l Hrun; simpl in Hrun;
    destruct (Z.ltb_spec s (etime self)) as [Hlt | Hge].
  - discriminate.
  - injection Hrun as <-. exists []. rewrite app_nil_r.
    split; [reflexivity | constructor; exact Hge].
  - unfold datetime_add in Hrun.
    destruct ((0 <=? s + timedelta_weeks w) && (s + timedelta_weeks w <=? datetime_max));
      simpl in Hrun; [|discriminate].
    set (c := (s, if s + timedelta_weeks w <? etime self
                  then s + timedelta_weeks w else etime self)).
    assert (Hrun' : chunk_loop fuel self w (s + timedelta_weeks w) (acc ++ [c]) = Returns l).
    { subst c. destruct (s + timedelta_weeks w <? etime self); exact Hrun. }
    destruct (IH _ _ _ Hrun') as (tail & -> & Hw).
    exists (c :: tail). split.
    + rewrite <- app_assoc. reflexivity.
    + subst c. constructor; assumption.
  - injection Hrun as <-. exists []. rewrite app_nil_r.
    split; [reflexivity | constructor; exact Hge].
Qed.

(** ** Facts on Python numbers *)

Lemma to_Q_py_float (q : Q) : (to_Q (py_float q) == q)%Q.
Proof. apply Qred_correct. Qed.

Lemma Qred_inject_Z (z : Z) : Qred (inject_Z z) = inject_Z z.
Proof. apply Qred_identity. simpl. apply Z.gcd_1_r. Qed.

Lemma Qnum_zero (q : Q) : Qnum q = 0 <-> (q == 0)%Q.
Proof. unfold Qeq; simpl. lia. Qed.

Lemma py_is_zero_false (x : num) : py_is_zero x = false <-> ~ (to_Q x == 0)%Q.
Proof.
  destruct x as [z | q]; simpl; rewrite Z.eqb_neq.
  - unfold Qeq; simpl. lia.
  - rewrite Qnum_zero. reflexivity.
Qed.

Lemma py_is_zero_true (x : num) : py_is_zero x = true <-> (to_Q x == 0)%Q.
Proof.
  destruct x as [z | q]; simpl; rewrite Z.eqb_eq.
  - unfold Qeq; simpl. lia.
  - apply Qnum_zero.
Qed.

Lemma py_div_float_l (q : Q) (b : num) :
  ~ (to_Q b == 0)%Q -> py_div (PyFloat q) b = Returns (py_float (q / to_Q b)).
Proof.
  intros Hb. unfold py_div. apply py_is_zero_false in Hb. rewrite Hb.
  destruct b; reflexivity.
Qed.

Lemma py_div_float_r (a : num) (q : Q) :
  ~ (q == 0)%Q -> py_div a (PyFloat q) = Returns (py_float (to_Q a / q)).
Proof.
  intros Hq. unfold py_div.
  assert (Hz : py_is_zero (PyFloat q) = false) by (apply py_is_zero_false; exact Hq).
  rewrite Hz. destruct a; reflexivity.
Qed.

Lemma py_div_zero (a b : num) :
  (to_Q b == 0)%Q -> py_div a b = Raises ZeroDivisionError.
Proof. intros Hb. unfold py_div. apply py_is_zero_true in Hb. rewrite Hb. reflexivity. Qed.

Lemma py_mul_float_l (q : Q) (b : num) : py_mul (PyFloat q) b = py_float (q * to_Q b).
Proof. destruct b; reflexivity. Qed.

Lemma py_mul_float_int (z k : Z) :
  py_mul (PyFloat (inject_Z z)) (PyInt k) = PyFloat (inject_Z (z * k)).
Proof.
  rewrite py_mul_float_l. unfold py_float. simpl to_Q.
  rewrite <- (Qred_inject_Z (z * k)). reflexivity.
Qed.

Lemma py_mul_float_float (z k : Z) :
  py_mul (PyFloat (inject_Z z)) (PyFloat (inject_Z k)) = PyFloat (inject_Z (z * k)).
Proof.
  rewrite py_mul_float_l. unfold py_float. simpl to_Q.
  rewrite <- (Qred_inject_Z (z * k)). reflexivity.
Qed.

Lemma round_half_even_int (z : Z) : round_half_even (inject_Z z) = z.
Proof.
  unfold round_half_even. rewrite Qfloor_Z.
  assert (H : (inject_Z z - inject_Z z ?= 1 # 2)%Q = Lt).
  { apply Qlt_alt. unfold Qminus. rewrite Qplus_opp_r. reflexivity. }
  rewrite H. reflexivity.
Qed.

(** [timedelta(weeks = k)] for a whole number of weeks. *)
Lemma timedelta_weeks_int (k : Z) :
  timedelta_weeks (PyFloat (inject_Z k)) = k * us_per_week.
Proof.
  unfold timedelta_weeks. simpl to_Q.
  change (inject_Z k * inject_Z us_per_week)%Q with (inject_Z (k * us_per_week)).
  apply round_half_even_int.
Qed.

(** ** The extent estimator, unfolded *)

Lemma py_div_20 (x : num) : py_div x (PyInt 20) = Returns (quot20 x).
Proof. destruct x; reflexivity. Qed.

Lemma numTilesForBbox_eq (self : searchLAADS) :
  numTilesForBbox self =
  Returns (PyFloat (inject_Z (cells (bbox_2 self) (bbox_3 self) * 2 *
                              cells (bbox_0 self) (bbox_1 self) * 2))).
Proof.
  unfold numTilesForBbox. rewrite !py_div_20. unfold obind, math_ceil. fold (cells (bbox_2 self) (bbox_3 self)).
  fold (cells (bbox_0 self) (bbox_1 self)).
  rewrite py_mul_float_int, py_mul_float_float, py_mul_float_int. reflexivity.
Qed.

Lemma to_Q_py_abs_nonneg (x : num) : (0 <= to_Q (py_abs x))%Q.
Proof.
  destruct x as [z | q]; simpl.
  - change 0%Q with (inject_Z 0). rewrite <- Zle_Qle. apply Z.abs_nonneg.
  - rewrite Qred_correct. apply Qabs_nonneg.
Qed.

Lemma cells_nonneg (a b : num) : 0 <= cells a b.
Proof.
  unfold cells. rewrite <- (Qceiling_Z 0).
  apply Qceiling_resp_le, to_Q_py_abs_nonneg.
Qed.

Lemma cells_exact (a b : num) :
  exact_span a b -> cells a b = Qceiling (Qabs (to_Q a - to_Q b) / 20).
Proof.
  unfold cells. intros Hex. destruct a as [x | p], b as [y | q]; simpl in Hex;
    try (simpl; apply Qceiling_comp; rewrite !Qred_correct;
         unfold Qdiv; rewrite Qabs_Qmult; reflexivity).
  destruct Hex as [k Hk]. unfold py_sub, quot20, py_abs, to_Q.
  rewrite Hk, Z.div_mul, Qceiling_Z by lia.
  assert (E : (Qabs (inject_Z x - inject_Z y) / 20 == inject_Z (Z.abs k))%Q).
  { unfold Qminus. rewrite <- inject_Z_opp, <- inject_Z_plus.
    replace (x + - y) with (k * 20) by lia.
    change (Qabs (inject_Z (k * 20))) with (inject_Z (Z.abs (k * 20))).
    rewrite Z.abs_mul, inject_Z_mult. apply Qdiv_mult_l. discriminate. }
  rewrite E, Qceiling_Z. reflexivity.
Qed.

Lemma cells_exact_sym (a b : num) :
  exact_span a b -> exact_span b a -> cells a b = cells b a.
Proof.
  intros Hab Hba. rewrite !cells_exact by assumption.
  rewrite (Qabs_Qminus (to_Q a) (to_Q b)). reflexivity.
Qed.

(** ** The chunk planner, unfolded *)

Lemma Qred_nonzero (q : Q) : ~ (q == 0)%Q -> ~ (Qred q == 0)%Q.
Proof. intros Hq. rewrite Qred_correct. exact Hq. Qed.

Lemma Qdiv_nonzero (p q : Q) : ~ (p == 0)%Q -> ~ (q == 0)%Q -> ~ (p / q == 0)%Q.
Proof.
  intros Hp Hq Hpq. apply Hp.
  rewrite <- (Qdiv_mult_l p q Hq). unfold Qdiv at 1.
  rewrite <- Qmult_assoc, (Qmult_comm q), Qmult_assoc.
  change (p * / q)%Q with (p / q)%Q. rewrite Hpq. ring.
Qed.

Lemma Qmult_nonzero (p q : Q) : ~ (p == 0)%Q -> ~ (q == 0)%Q -> ~ (p * q == 0)%Q.
Proof. intros Hp Hq Hpq. destruct (Qmult_integral _ _ Hpq); contradiction. Qed.

Lemma inject_Z_nonzero (z : Z) : z <> 0 -> ~ (inject_Z z == 0)%Q.
Proof. intros Hz. unfold Qeq; simpl. lia. Qed.

Lemma timeChunks_unfold (self : searchLAADS) (tiles : num) :
  stime self <> etime self ->
  LAADSmaxFiles self <> 0 ->
  numTilesForBbox self = Returns tiles ->
  ~ (to_Q tiles == 0)%Q ->
  timeChunks self =
  chunk_loop (loop_bound self (chunkWeeks_of self tiles)) self
             (chunkWeeks_of self tiles) (stime self) [].
Proof.
  intros Hse Hcap Htiles Ht.
  unfold timeChunks, estimNumFiles, total_seconds, datetime_sub, py_float.
  set (D := inject_Z (etime self - stime self)).
  set (C := inject_Z (LAADSmaxFiles self)).
  assert (HD : ~ (D == 0)%Q) by (apply inject_Z_nonzero; lia).
  assert (HC : ~ (C == 0)%Q) by (apply inject_Z_nonzero; exact Hcap).
  set (d := Qred (D / inject_Z us_per_second)).
  assert (Hd : ~ (d == 0)%Q)
    by (apply Qred_nonzero, Qdiv_nonzero; [exact HD | discriminate]).
  rewrite (py_div_float_l d (PyInt 3600)) by discriminate.
  unfold py_float; cbn [obind to_Q].
  set (dh := Qred (d / inject_Z 3600)).
  assert (Hdh : ~ (dh == 0)%Q)
    by (apply Qred_nonzero, Qdiv_nonzero; [exact Hd | discriminate]).
  rewrite (py_div_float_l dh (PyInt 12)) by discriminate.
  rewrite Htiles. unfold py_float; cbn [obind to_Q].
  set (ndn := Qred (dh / inject_Z 12)).
  assert (Hndn : ~ (ndn == 0)%Q)
    by (apply Qred_nonzero, Qdiv_nonzero; [exact Hdh | discriminate]).
  rewrite py_mul_float_l. unfold py_float.
  set (nf := Qred (ndn * to_Q tiles)).
  assert (Hnf : ~ (nf == 0)%Q)
    by (apply Qred_nonzero, Qmult_nonzero; assumption).
  rewrite (py_div_float_l nf (PyInt (LAADSmaxFiles self))) by exact HC.
  unfold py_float; cbn [obind to_Q]. fold C.
  set (nc := Qred (nf / C)).
  assert (Hnc : ~ (nc == 0)%Q)
    by (apply Qred_nonzero, Qdiv_nonzero; assumption).
  rewrite (py_div_float_r (PyFloat dh) nc) by exact Hnc.
  unfold py_float; cbn [obind to_Q].
  set (ch := Qred (dh / nc)).
  rewrite (py_div_float_l ch (PyInt (7 * 24))) by discriminate.
  unfold py_float; cbn [obind to_Q].
  assert (E : math_ceil (PyFloat (Qred (ch / inject_Z (7 * 24)))) = chunkWeeks_of self tiles).
  { unfold math_ceil, chunkWeeks_of. cbn [to_Q]. do 2 f_equal.
    apply Qceiling_comp. fold C.
    subst ch nc nf ndn dh d. rewrite !Qred_correct.
    change (inject_Z us_per_second) with 1000000%Q.
    change (inject_Z 3600) with 3600%Q.
    change (inject_Z 12) with 12%Q.
    change (inject_Z (7 * 24)) with 168%Q.
    field. repeat split; try assumption; discriminate. }
  rewrite E. reflexivity.
Qed.

(** ** Termination of the walk *)

Section LoopBound.

Variable self : searchLAADS.
Variable w : num.

Let step : Z := timedelta_weeks w.

(** Walking forward inside the calendar, the loop returns within
    [fuel] passes once [fuel] steps reach past the end. *)
Lemma chunk_loop_forward (fuel : nat) :
  0 < step ->
  etime self + step <= datetime_max + 1 ->
  forall (s : datetime) (acc : list chunk),
    0 <= s ->
    etime self - s <= Z.of_nat fuel * step ->
    exists l, chunk_loop fuel self w s acc = Returns l.
Proof.
  intros Hstep Hmax. induction fuel as [|fuel IH]; intros s acc Hs Hfuel; simpl;
    destruct (Z.ltb_spec s (etime self)) as [Hlt | Hge]; try (eexists; reflexivity).
  - lia.
  - unfold datetime_add. fold step.
    replace ((0 <=? s + step) && (s + step <=? datetime_max)) with true
      by (symmetry; apply andb_true_iff; split; apply Z.leb_le; lia).
    cbn [obind]. apply IH; lia.
Qed.

(** Walking backward, the loop leaves the calendar and raises. *)
Lemma chunk_loop_backward (fuel : nat) :
  step < 0 ->
  forall (s : datetime) (acc : list chunk),
    s < etime self ->
    Z.max s 0 < Z.of_nat fuel * (- step) ->
    chunk_loop fuel self w s acc = Raises OverflowError.
Proof.
  intros Hstep. induction fuel as [|fuel IH]; intros s acc Hlt Hfuel; simpl;
    destruct (Z.ltb_spec s (etime self)) as [_ | Hge]; try lia.
  unfold datetime_add. fold step.
  destruct ((0 <=? s + step) && (s + step <=? datetime_max)) eqn:Hin;
    cbn [obind]; [|reflexivity].
  apply andb_true_iff in Hin. destruct Hin as [Hlo _]. apply Z.leb_le in Hlo.
  apply IH; lia.
Qed.

Lemma loop_bound_forward :
  0 < step ->
  etime self - stime self <= Z.of_nat (loop_bound self w) * step.
Proof.
  intros Hstep. unfold loop_bound. fold step.
  destruct (Z.ltb_spec 0 step) as [_ | ?]; [|lia].
  destruct (Z_lt_dec (etime self - stime self) 0) as [Hneg | Hpos]; [nia|].
  rewrite Nat2Z.inj_add, Z2Nat.id by (apply Z.div_pos; lia).
  pose proof (Z.mul_succ_div_gt (etime self - stime self) step Hstep). lia.
Qed.

Lemma loop_bound_backward :
  step < 0 ->
  Z.max (stime self) 0 < Z.of_nat (loop_bound self w) * (- step).
Proof.
  intros Hstep. unfold loop_bound. fold step.
  destruct (Z.ltb_spec 0 step) as [? | _]; [lia|].
  destruct (Z.ltb_spec step 0) as [_ | ?]; [|lia].
  rewrite Nat2Z.inj_add. change (Z.of_nat 1) with 1.
  destruct (Z_lt_dec (stime self) 0) as [Hneg | Hpos].
  - rewrite Z.max_r by lia. nia.
  - rewrite Z.max_l, Z2Nat.id by (try apply Z.div_pos; lia).
    pose proof (Z.mul_succ_div_gt (stime self) (- step)). lia.
Qed.

(** The bound is enough: the bounded loop gives up only where the
    loop of the source never ends, on a zero step. *)
Lemma loop_bound_adequate :
  chunk_loop (loop_bound self w) self w (stime self) [] = Diverges ->
  step = 0 /\ stime self < etime self.
Proof.
  intros Hdiv.
  destruct (Z.ltb_spec (stime self) (etime self)) as [Hlt | Hge].
  - split; [|exact Hlt].
    destruct (Z.lt_trichotomy step 0) as [Hneg | [Hz | Hpos]]; [|exact Hz|].
    + rewrite (chunk_loop_backward _ Hneg) in Hdiv;
        [discriminate | exact Hlt | apply loop_bound_backward; exact Hneg].
    + exfalso. pose proof (loop_bound_forward Hpos) as Hb. revert Hdiv Hb.
      generalize (loop_bound self w) (stime self) (@nil chunk).
      intros fuel. induction fuel as [|fuel IH]; intros s acc; simpl;
        destruct (Z.ltb_spec s (etime self)) as [Hs | Hs]; try discriminate; try lia.
      unfold datetime_add. fold step.
      destruct ((0 <=? s + step) && (s + step <=? datetime_max));
        cbn [obind]; [|discriminate].
      intros Hdiv Hb. apply (IH _ _ Hdiv). lia.
  - exfalso. destruct (loop_bound self w); simpl in Hdiv;
      destruct (Z.ltb_spec (stime self) (etime self)); try discriminate; lia.
Qed.

End LoopBound.

Lemma Qceiling_pos (q : Q) : (0 < q)%Q -> 1 <= Qceiling q.
Proof.
  intros Hq. pose proof (Qle_ceiling q) as Hc.
  assert (H : (inject_Z 0 < inject_Z (Qceiling q))%Q)
    by (eapply Qlt_le_trans; [exact Hq | exact Hc]).
  rewrite <- Zlt_Qlt in H. lia.
Qed.

(** With a positive cap and a tile count that is not zero, a chunk is at
    least one week wide. *)
Lemma chunkWeeks_of_pos (self : searchLAADS) (tiles : num) :
  0 < LAADSmaxFiles self ->
  (0 < to_Q tiles)%Q ->
  exists k, 1 <= k /\ chunkWeeks_of self tiles = PyFloat (inject_Z k).
Proof.
  intros Hcap Ht. eexists. split; [|reflexivity].
  apply Qceiling_pos. apply Qlt_shift_div_l.
  - apply Qmult_lt_0_compat; [reflexivity | exact Ht].
  - rewrite Qmult_0_l. change 0%Q with (inject_Z 0). rewrite <- Zlt_Qlt. exact Hcap.
Qed.

Lemma numTilesForBbox_pos (self : searchLAADS) (tiles : num) :
  numTilesForBbox self = Returns tiles ->
  ~ (to_Q tiles == 0)%Q -> (0 < to_Q tiles)%Q.
Proof.
  rewrite numTilesForBbox_eq. intros [= <-] Hnz. cbn [to_Q] in *.
  pose proof (cells_nonneg (bbox_2 self) (bbox_3 self)).
  pose proof (cells_nonneg (bbox_0 self) (bbox_1 self)).
  change 0%Q with (inject_Z 0). rewrite <- Zlt_Qlt.
  assert (cells (bbox_2 self) (bbox_3 self) * 2 * cells (bbox_0 self) (bbox_1 self) * 2 <> 0).
  { intros E. apply Hnz. rewrite E. reflexivity. }
  nia.
Qed.

(** The planner returns a chunk list whenever the range runs forward,
    the cap is positive, the tile count is not zero, and the last step
    of the walk stays inside the calendar. *)
Lemma timeChunks_returns (self : searchLAADS) (tiles : num) :
  stime self < etime self ->
  0 < LAADSmaxFiles self ->
  numTilesForBbox self = Returns tiles ->
  ~ (to_Q tiles == 0)%Q ->
  0 <= stime self ->
  etime self + timedelta_weeks (chunkWeeks_of self tiles) <= datetime_max + 1 ->
  exists l, timeChunks self = Returns l.
Proof.
  intros Hse Hcap Htiles Hnz Hs Hmax.
  rewrite (timeChunks_unfold self tiles) by (assumption || lia).
  destruct (chunkWeeks_of_pos self tiles Hcap (numTilesForBbox_pos _ _ Htiles Hnz))
    as (k & Hk & Ek).
  assert (Hstep : 0 < timedelta_weeks (chunkWeeks_of self tiles)).
  { rewrite Ek, timedelta_weeks_int. unfold us_per_week, us_per_second. lia. }
  apply chunk_loop_forward; try assumption.
  apply loop_bound_forward. exact Hstep.
Qed.

(** What the planner returns, it returns from its loop, run on a whole
    number of weeks. *)
Lemma timeChunks_inv (self : searchLAADS) (l : list chunk) :
  timeChunks self = Returns l ->
  exists k, chunk_loop (loop_bound self (PyFloat (inject_Z k))) self
                       (PyFloat (inject_Z k)) (stime self) [] = Returns l.
Proof.
  unfold timeChunks. intros Hrun.
  destruct (estimNumFiles self) as [numFiles | |]; cbn [obind] in Hrun; try discriminate.
  destruct (py_div numFiles _) as [numChunks | |]; cbn [obind] in Hrun; try discriminate.
  destruct (py_div (total_seconds _) _) as [deltaHours | |];
    cbn [obind] in Hrun; try discriminate.
  destruct (py_div deltaHours numChunks) as [chunkHours | |];
    cbn [obind] in Hrun; try discriminate.
  destruct (py_div chunkHours _) as [weeks | |]; cbn [obind] in Hrun; try discriminate.
  unfold math_ceil in Hrun. eexists. exact Hrun.
Qed.

Lemma timeChunks_walk (self : searchLAADS) (l : list chunk) :
  timeChunks self = Returns l ->
  exists k, walk (k * us_per_week) (etime self) (stime self) l.
Proof.
  intros Hrun. destruct (timeChunks_inv _ _ Hrun) as [k Hloop].
  destruct (chunk_loop_walk _ _ _ _ _ _ Hloop) as (tail & -> & Hw).
  rewrite timedelta_weeks_int in Hw. exists k. exact Hw.
Qed.

(** When the guard fails at once, the loop hands back its list. *)
Lemma chunk_loop_skip (fuel : nat) (self : searchLAADS) (w : num)
    (s : datetime) (acc : list chunk) :
  etime self <= s -> chunk_loop fuel self w s acc = Returns acc.
Proof.
  intros Hge. destruct fuel; simpl;
    destruct (Z.ltb_spec s (etime self)); (reflexivity || lia).
Qed.

(** The file estimate is a float. *)
Lemma estimNumFiles_float (self : searchLAADS) (n : num) :
  estimNumFiles self = Returns n -> exists q, n = PyFloat q.
Proof.
  unfold estimNumFiles, total_seconds, py_float.
  rewrite (py_div_float_l _ (PyInt 3600)) by discriminate.
  unfold py_float; cbn [obind].
  rewrite (py_div_float_l _ (PyInt 12)) by discriminate.
  unfold py_float; cbn [obind].
  rewrite numTilesForBbox_eq; cbn [obind].
  rewrite py_mul_float_l. intros [= <-]. eexists. reflexivity.
Qed.

(** A file estimate of zero makes the planner divide by zero. *)
Lemma timeChunks_zero_estimate (self : searchLAADS) (n : num) :
  estimNumFiles self = Returns n ->
  (to_Q n == 0)%Q ->
  timeChunks self = Raises ZeroDivisionError.
Proof.
  intros Hn Hz. destruct (estimNumFiles_float _ _ Hn) as [q ->].
  unfold timeChunks. rewrite Hn; cbn [obind].
  destruct (Z.eq_dec (LAADSmaxFiles self) 0) as [Hcap | Hcap].
  - rewrite py_div_zero by (rewrite Hcap; reflexivity). reflexivity.
  - rewrite py_div_float_l by (apply inject_Z_nonzero; exact Hcap). cbn [obind].
    unfold total_seconds, py_float.
    rewrite (py_div_float_l _ (PyInt 3600)) by discriminate. cbn [obind].
    rewrite py_div_zero; [reflexivity|].
    cbn [to_Q] in *. rewrite Qred_correct, Hz. unfold Qdiv. ring.
Qed.

(** ** Properties of the chunk planner *)

(** C1.  For every range with start strictly before end and every
    positive cap, the chunk list the planner returns tiles the range:
    the first chunk starts at the start of the range, the last chunk
    ends at its end, each chunk ends where the next one starts, and
    every chunk runs forward, so there is no gap and no overlap. *)
Theorem timeChunks_covers (self : searchLAADS) (l : list chunk) :
  stime self < etime self ->
  0 < LAADSmaxFiles self ->
  timeChunks self = Returns l ->
  covers (stime self) (etime self) l.
Proof.
  intros Hse _ Hrun. destruct (timeChunks_walk _ _ Hrun) as [k Hw].
  exact (walk_covers _ _ _ _ Hw Hse).
Qed.

Lemma timeChunks_covers_witness :
  exists l, timeChunks (session jan_2020 jan_2022 box_40_20) = Returns l /\
            covers jan_2020 jan_2022 l.
Proof.
  eexists. split.
  - vm_compute. reflexivity.
  - apply (timeChunks_covers (session jan_2020 jan_2022 box_40_20)).
    + reflexivity.
    + reflexivity.
    + vm_compute. reflexivity.
Defined.

(** C3 at an extent without height (north = south = 20): the file
    estimate is zero and the planner raises [ZeroDivisionError] instead
    of planning one chunk. *)
Theorem timeChunks_flat_extent_raises :
  let self := session jan_2020 mar_2020 (PyInt 20, PyInt 20, PyInt (-100), PyInt (-80)) in
  estimNumFiles self = Returns (PyFloat 0) /\
  timeChunks self = Raises ZeroDivisionError.
Proof. split; vm_compute; reflexivity. Qed.

(** C4, as the code has it.  On a range whose end is strictly before its
    start, with a positive cap and a tile count that is not zero, the
    planner raises nothing: it returns the empty chunk list. *)
Theorem timeChunks_reversed_range (self : searchLAADS) (tiles : num) :
  etime self < stime self ->
  0 < LAADSmaxFiles self ->
  numTilesForBbox self = Returns tiles ->
  ~ (to_Q tiles == 0)%Q ->
  timeChunks self = Returns [].
Proof.
  intros Hes Hcap Htiles Hnz.
  rewrite (timeChunks_unfold self tiles) by (assumption || lia).
  apply chunk_loop_skip. lia.
Qed.

Lemma timeChunks_reversed_range_witness :
  timeChunks (session mar_2020 jan_2020 box_40_20) = Returns [].
Proof.
  apply (timeChunks_reversed_range (session mar_2020 jan_2020 box_40_20) (PyFloat 4)).
  - reflexivity.
  - reflexivity.
  - vm_compute. reflexivity.
  - vm_compute. discriminate.
Defined.

(** C4 as stated fails: the range from 2020-03-01 back to 2020-01-01 is
    planned without any error. *)
Lemma timeChunks_reversed_range_no_error :
  ~ (forall self : searchLAADS,
        etime self < stime self ->
        exists e, timeChunks self = Raises e).
Proof.
  intros H. destruct (H (session mar_2020 jan_2020 box_40_20)) as [e He].
  - reflexivity.
  - vm_compute in He. discriminate He.
Qed.

(** C7.  For every range with start strictly before end and a positive
    file estimate, every chunk of the planner's list but the last is a
    whole number of weeks wide (a week is 168 hours), the same positive
    number for all of them. *)
Theorem timeChunks_whole_weeks (self : searchLAADS) (n : num) (l : list chunk) :
  stime self < etime self ->
  estimNumFiles self = Returns n ->
  (0 < to_Q n)%Q ->
  timeChunks self = Returns l ->
  exists k, 0 < k /\
    forall (i : nat) (c : chunk),
      l !! i = Some c -> (S i < length l)%nat -> snd c - fst c = k * us_per_week.
Proof.
  intros Hse _ _ Hrun. destruct (timeChunks_walk _ _ Hrun) as [k Hw].
  exists k. split.
  - pose proof (walk_forward _ _ _ _ Hw Hse) as Hstep.
    unfold us_per_week, us_per_second in Hstep. lia.
  - exact (walk_widths _ _ _ _ Hw).
Qed.

Lemma timeChunks_whole_weeks_witness :
  exists l, timeChunks (session jan_2020 jan_2022 box_40_20) = Returns l /\
  exists k, 0 < k /\
    forall (i : nat) (c : chunk),
      l !! i = Some c -> (S i < length l)%nat -> snd c - fst c = k * us_per_week.
Proof.
  eexists. split.
  - vm_compute. reflexivity.
  - apply (timeChunks_whole_weeks (session jan_2020 jan_2022 box_40_20) (PyFloat 5848)).
    + reflexivity.
    + vm_compute. reflexivity.
    + reflexivity.
    + vm_compute. reflexivity.
Defined.

(** Within the calendar the planner does return, and what it returns
    tiles the range. *)
Lemma timeChunks_plans (self : searchLAADS) (tiles : num) :
  stime self < etime self ->
  0 < LAADSmaxFiles self ->
  numTilesForBbox self = Returns tiles ->
  ~ (to_Q tiles == 0)%Q ->
  0 <= stime self ->
  etime self + timedelta_weeks (chunkWeeks_of self tiles) <= datetime_max + 1 ->
  exists l, timeChunks self = Returns l /\ covers (stime self) (etime self) l.
Proof.
  intros Hse Hcap Htiles Hnz Hs Hmax.
  destruct (timeChunks_returns self tiles Hse Hcap Htiles Hnz Hs Hmax) as [l Hrun].
  exists l. split; [exact Hrun|].
  destruct (timeChunks_walk _ _ Hrun) as [k Hw].
  exact (walk_covers _ _ _ _ Hw Hse).
Qed.

(** ** Properties of the extent estimator *)

(** The estimate is never negative. *)
Lemma numTilesForBbox_nonneg (self : searchLAADS) :
  exists tiles, numTilesForBbox self = Returns tiles /\ (0 <= to_Q tiles)%Q.
Proof.
  eexists. split; [apply numTilesForBbox_eq|]. cbn [to_Q].
  pose proof (cells_nonneg (bbox_2 self) (bbox_3 self)).
  pose proof (cells_nonneg (bbox_0 self) (bbox_1 self)).
  change 0%Q with (inject_Z 0). rewrite <- Zle_Qle. nia.
Qed.

(** On exact spans the estimate does not change when north and south
    trade places, nor when west and east do. *)
Lemma numTilesForBbox_swap_exact (self self' : searchLAADS) (north south west east : num) :
  bbox self = (north, south, west, east) ->
  (bbox self' = (south, north, west, east) \/ bbox self' = (north, south, east, west)) ->
  exact_span north south -> exact_span south north ->
  exact_span west east -> exact_span east west ->
  numTilesForBbox self' = numTilesForBbox self.
Proof.
  intros Hb Hb' Hns Hsn Hwe Hew. rewrite !numTilesForBbox_eq.
  unfold bbox_0, bbox_1, bbox_2, bbox_3. rewrite Hb.
  destruct Hb' as [-> | ->].
  - rewrite (cells_exact_sym south north) by assumption. reflexivity.
  - rewrite (cells_exact_sym east west) by assumption. reflexivity.
Qed.

(** C5 on the extent of the design and on an extent ten degrees high,
    both with int bounds: the first gives the 4 tiles of the design; on
    the second the division of 10 by 20 floors to 0 before [math.ceil]
    sees it, and the estimate is 0 where the design counts 4. *)
Theorem numTilesForBbox_int_bounds :
  numTilesForBbox (session jan_2020 mar_2020 box_40_20) = Returns (PyFloat 4) /\
  tileCount_spec 40 20 (-100) (-80) = 4 /\
  numTilesForBbox
    (session jan_2020 mar_2020 (PyInt 30, PyInt 20, PyInt (-100), PyInt (-80)))
  = Returns (PyFloat 0) /\
  tileCount_spec 30 20 (-100) (-80) = 4.
Proof. repeat split; vm_compute; reflexivity. Qed.

(** C6 on int bounds ten degrees apart: with north = 30 and south = 20
    the estimate is 0, with the two swapped it is 4. *)
Theorem numTilesForBbox_swap_int_bounds :
  numTilesForBbox
    (session jan_2020 mar_2020 (PyInt 30, PyInt 20, PyInt (-100), PyInt (-80)))
  = Returns (PyFloat 0) /\
  numTilesForBbox
    (session jan_2020 mar_2020 (PyInt 20, PyInt 30, PyInt (-100), PyInt (-80)))
  = Returns (PyFloat 4).
Proof. split; vm_compute; reflexivity. Qed.

(** ** Properties of the orchestrator *)

Section OrchestratorFacts.

Context `{Server}.
Variable strftime : datetime -> string.

Lemma chunk_calls_set_fileURLs (self : searchLAADS) (urls : list string) (c : chunk) :
  chunk_calls strftime (set_fileURLs self urls) c = chunk_calls strftime self c.
Proof. reflexivity. Qed.

Lemma chunk_urls_set_fileURLs (self : searchLAADS) (urls : list string)
    (tchunks : list chunk) :
  chunk_urls strftime (set_fileURLs self urls) tchunks = chunk_urls strftime self tchunks.
Proof. reflexivity. Qed.

(** The loop makes the two calls of every chunk, in order, appends the
    resolved URLs to the session, and leaves the file system alone. *)
Lemma searchFiles_loop_calls (tchunks : list chunk) :
  forall (self : searchLAADS) (w : world),
  exists w',
    searchFiles_loop strftime self tchunks w =
      (Returns (set_fileURLs self (fileURLs self ++ chunk_urls strftime self tchunks)), w') /\
    calls w' = calls w ++ flat_map (chunk_calls strftime self) tchunks /\
    fs w' = fs w.
Proof.
  induction tchunks as [|c rest IH]; intros self w.
  - exists w. repeat split.
    + unfold chunk_urls. simpl. unfold mret. rewrite app_nil_r.
      destruct self; reflexivity.
    + simpl. rewrite app_nil_r. reflexivity.
  - simpl searchFiles_loop. unfold mbind at 1.
    unfold searchFiles_body, mbind, server_searchForFiles, server_getFileUrls, mret.
    match goal with
    | |- context [searchFiles_loop strftime ?s rest ?v] =>
        destruct (IH s v) as (w' & Hrun & Hcalls & Hfs)
    end.
    exists w'. repeat split.
    + rewrite Hrun, chunk_urls_set_fileURLs. do 2 f_equal.
      unfold set_fileURLs; cbn [product collection stime etime bbox cot dnb fileURLs
                                LAADSmaxFiles].
      f_equal. unfold chunk_urls. simpl flat_map. rewrite <- app_assoc. reflexivity.
    + rewrite Hcalls. cbn [calls].
      rewrite (flat_map_ext _ (chunk_calls strftime self))
        by (intros; apply chunk_calls_set_fileURLs).
      simpl flat_map. rewrite <- !app_assoc. reflexivity.
    + rewrite Hfs. reflexivity.
Qed.

(** C8, as the code has it.  The orchestrator calls the URL resolution
    once for every chunk, right after the search for that chunk and
    with the identifiers the search returned joined by commas, whether
    or not there are any: the calls made are the search and the
    resolve call of each chunk of the plan, in order. *)
Theorem searchFiles_resolves_every_chunk (self : searchLAADS)
    (tchunks : list chunk) (w : world) :
  timeChunks self = Returns tchunks ->
  exists self' w',
    searchFiles strftime self w = (Returns self', w') /\
    calls w' = calls w ++ flat_map (chunk_calls strftime self) tchunks.
Proof.
  intros Hplan. unfold searchFiles, mbind at 1, mlift. rewrite Hplan.
  unfold mbind at 1.
  set (w1 := snd ((if (1 <? length tchunks)%nat
                   then print MsgManyFiles else print MsgSearching) w)).
  assert (Hp : (if (1 <? length tchunks)%nat
                then print MsgManyFiles else print MsgSearching) w = (Returns tt, w1)).
  { subst w1. destruct (1 <? length tchunks)%nat; reflexivity. }
  rewrite Hp.
  destruct (searchFiles_loop_calls tchunks self w1) as (w' & Hrun & Hcalls & _).
  eexists _, w'. split; [exact Hrun|].
  rewrite Hcalls. subst w1. destruct (1 <? length tchunks)%nat; reflexivity.
Qed.

End OrchestratorFacts.

Lemma searchFiles_resolves_every_chunk_witness :
  let self := session jan_2020 mar_2020 box_40_20 in
  exists self' w',
    @searchFiles empty_catalog no_format self empty_world = (Returns self', w') /\
    calls w' = calls empty_world ++
               flat_map (@chunk_calls empty_catalog no_format self)
                        [(jan_2020, mar_2020)].
Proof.
  apply (@searchFiles_resolves_every_chunk empty_catalog no_format
           (session jan_2020 mar_2020 box_40_20) [(jan_2020, mar_2020)] empty_world).
  vm_compute. reflexivity.
Defined.

(** C8 as stated fails: the empty catalog returns no identifier for the
    chunk, and the resolve call is made all the same. *)
Lemma searchFiles_body_resolves_empty :
  ~ (forall (srv : Server) (strftime : datetime -> string)
            (self : searchLAADS) (c : chunk) (w : world),
        resolve_called
          (drop (length (calls w))
                (calls (snd (@searchFiles_body srv strftime self c w)))) <->
        @searchForFiles srv (chunk_query strftime self c) <> []).
Proof.
  intros H.
  destruct (H empty_catalog no_format (session jan_2020 mar_2020 box_40_20)
              (jan_2020, mar_2020) empty_world) as [Hno _].
  apply Hno; [|reflexivity].
  exists EmptyString. simpl. apply list_elem_of_In. right. left. reflexivity.
Qed.

(** ** Properties of the URL list writer *)

Lemma string_app_assoc (a b c : string) : (a +:+ b) +:+ c = a +:+ (b +:+ c).
Proof.
  induction a as [|x a IH]; [reflexivity|].
  change (String x ((a +:+ b) +:+ c) = String x (a +:+ (b +:+ c))).
  rewrite IH. reflexivity.
Qed.

Lemma string_app_nil_r (a : string) : a +:+ EmptyString = a.
Proof.
  induction a as [|x a IH]; [reflexivity|].
  change (String x (a +:+ EmptyString) = String x a).
  rewrite IH. reflexivity.
Qed.

(** Writing the lines appends them to what the open file holds. *)
Lemma write_lines_appends (fname : string) (urls : list string) :
  forall (w : world) (content : string),
    fs w !! fname = Some (File content) ->
    write_lines fname urls w =
    (Returns tt, {| fs := <[fname := File (content +:+ url_lines urls)]> (fs w);
                    stdout := stdout w; calls := calls w |}).
Proof.
  induction urls as [|i rest IH]; intros w content Hfile; simpl.
  - unfold mret. rewrite string_app_nil_r, insert_id by exact Hfile.
    destruct w; reflexivity.
  - unfold mbind, file_write. rewrite Hfile.
    rewrite (IH _ (content +:+ i +:+ newline)) by (cbn [fs]; apply lookup_insert_eq).
    cbn [fs stdout calls]. rewrite insert_insert_eq, !string_app_assoc. reflexivity.
Qed.

(** The write of [dumpURLs], for the proofs below. *)
Lemma dumpURLs_writes_aux (self : searchLAADS) (fname : string) (replace : bool) (w : world) :
  fileURLs self <> [] ->
  fs w !! fname = None \/ (replace = true /\ exists content, fs w !! fname = Some (File content)) ->
  dumpURLs self fname replace w =
  (Returns tt, {| fs := <[fname := File (url_lines (fileURLs self))]> (fs w);
                  stdout := stdout w; calls := calls w |}).
Proof.
  intros Hurls Hpath. unfold dumpURLs.
  destruct (fileURLs self) as [|u urls] eqn:Eurls; [contradiction|].
  cbn [length Nat.ltb Nat.leb]. unfold mbind at 1. unfold os_path_isfile.
  assert (Hgo : (match fs w !! fname with Some (File _) => true | _ => false end
                 && negb replace) = false).
  { destruct Hpath as [-> | (-> & content & ->)]; [reflexivity | apply andb_false_r]. }
  rewrite Hgo. unfold mbind, open_w.
  assert (Hopen : match fs w !! fname with
                  | Some Directory => (Raises IOError, w)
                  | _ => (Returns tt, {| fs := <[fname := File EmptyString]> (fs w);
                                         stdout := stdout w; calls := calls w |})
                  end = (Returns tt, {| fs := <[fname := File EmptyString]> (fs w);
                                        stdout := stdout w; calls := calls w |})).
  { destruct Hpath as [-> | (_ & content & ->)]; reflexivity. }
  rewrite Hopen.
  rewrite (write_lines_appends fname (u :: urls) _ EmptyString) by (cbn [fs]; apply lookup_insert_eq).
  cbn [fs stdout calls]. rewrite insert_insert_eq. reflexivity.
Qed.

(** X15.  Where nothing stands in the way (no node at the target path,
    or a file there and the overwrite flag set), [dumpURLs] leaves at the
    target path a file that holds the URLs, one a line, and nothing else;
    what the file held before is gone, and nothing is printed. *)
Lemma dumpURLs_writes (self : searchLAADS) (fname : string) (replace : bool) (w : world) :
  fileURLs self <> [] ->
  fs w !! fname = None \/ (replace = true /\ exists content, fs w !! fname = Some (File content)) ->
  dumpURLs self fname replace w =
  (Returns tt, {| fs := <[fname := File (url_lines (fileURLs self))]> (fs w);
                  stdout := stdout w; calls := calls w |}).
Proof.
  intros Hurls Hpath. unfold dumpURLs.
  destruct (fileURLs self) as [|u urls] eqn:Eurls; [contradiction|].
  cbn [length Nat.ltb Nat.leb]. unfold mbind at 1. unfold os_path_isfile.
  assert (Hgo : (match fs w !! fname with Some (File _) => true | _ => false end
                 && negb replace) = false).
  { destruct Hpath as [-> | (-> & content & ->)]; [reflexivity | apply andb_false_r]. }
  rewrite Hgo. unfold mbind, open_w.
  assert (Hopen : match fs w !! fname with
                  | Some Directory => (Raises IOError, w)
                  | _ => (Returns tt, {| fs := <[fname := File EmptyString]> (fs w);
                                         stdout := stdout w; calls := calls w |})
                  end = (Returns tt, {| fs := <[fname := File EmptyString]> (fs w);
                                        stdout := stdout w; calls := calls w |})).
  { destruct Hpath as [-> | (_ & content & ->)]; reflexivity. }
  rewrite Hopen.
  rewrite (write_lines_appends fname (u :: urls) _ EmptyString) by (cbn [fs]; apply lookup_insert_eq).
  cbn [fs stdout calls]. rewrite insert_insert_eq. reflexivity.
Qed.

(** X16.  A directory at the target path is not written to, with or
    without the overwrite flag: opening it raises [IOError] and the world
    stays as it was. *)
Lemma dumpURLs_directory (self : searchLAADS) (fname : string) (replace : bool) (w : world) :
  fileURLs self <> [] ->
  fs w !! fname = Some Directory ->
  dumpURLs self fname replace w = (Raises IOError, w).
Proof.
  intros Hurls Hdir. unfold dumpURLs.
  destruct (fileURLs self) as [|u urls]; [contradiction|].
  cbn [length Nat.ltb Nat.leb]. unfold mbind, os_path_isfile, open_w.
  rewrite Hdir. cbn [andb]. rewrite Hdir. reflexivity.
Qed.

(** C9.  For every session with URLs to write and every target path
    that is an existing file, [dumpURLs] without the overwrite flag
    prints that the file exists and leaves the file system as it was,
    the contents of that file included. *)
Theorem dumpURLs_existing_file (self : searchLAADS) (fname content : string) (w : world) :
  fileURLs self <> [] ->
  fs w !! fname = Some (File content) ->
  dumpURLs self fname false w =
  (Returns tt, {| fs := fs w; stdout := stdout w ++ [MsgFileExists]; calls := calls w |}).
Proof.
  intros Hurls Hfile. unfold dumpURLs.
  destruct (fileURLs self) as [|u urls]; [contradiction|].
  cbn [length Nat.ltb Nat.leb]. unfold mbind, os_path_isfile.
  rewrite Hfile. reflexivity.
Qed.

Lemma dumpURLs_existing_file_witness :
  let self := set_fileURLs (session jan_2020 mar_2020 box_40_20) ["url"] in
  let w := {| fs := {["urls.txt" := File "old"]}; stdout := []; calls := [] |} in
  dumpURLs self "urls.txt" false w =
  (Returns tt, {| fs := fs w; stdout := stdout w ++ [MsgFileExists]; calls := calls w |}).
Proof.
  apply (dumpURLs_existing_file
           (set_fileURLs (session jan_2020 mar_2020 box_40_20) ["url"])
           "urls.txt" "old").
  - discriminate.
  - vm_compute. reflexivity.
Defined.

(** C10.  For every session without URLs, [dumpURLs] writes nothing:
    whatever the overwrite flag and whatever is at the target path, it
    prints that there is nothing to write and leaves the file system as
    it was. *)
Theorem dumpURLs_no_urls (self : searchLAADS) (fname : string) (replace : bool) (w : world) :
  fileURLs self = [] ->
  dumpURLs self fname replace w =
  (Returns tt, {| fs := fs w; stdout := stdout w ++ [MsgNoURLs]; calls := calls w |}).
Proof. intros Hurls. unfold dumpURLs. rewrite Hurls. reflexivity. Qed.

Lemma dumpURLs_no_urls_witness :
  let self := session jan_2020 mar_2020 box_40_20 in
  let w := {| fs := {["urls.txt" := File "old"]}; stdout := []; calls := [] |} in
  dumpURLs self "urls.txt" true w =
  (Returns tt, {| fs := fs w; stdout := stdout w ++ [MsgNoURLs]; calls := calls w |}).
Proof.
  apply (dumpURLs_no_urls (session jan_2020 mar_2020 box_40_20) "urls.txt" true).
  reflexivity.
Defined.

(** ** More on the chunk planner *)

(** The loop raises nothing but the overflow of the calendar. *)
Lemma chunk_loop_raises (fuel : nat) (self : searchLAADS) (w : num) :
  forall (s : datetime) (acc : list chunk) (e : exn),
    chunk_loop fuel self w s acc = Raises e -> e = OverflowError.
Proof.
  induction fuel as [|fuel IH]; intros s acc e Hrun; simpl in Hrun;
    destruct (s <? etime self); try discriminate.
  unfold datetime_add in Hrun.
  destruct ((0 <=? s + timedelta_weeks w) && (s + timedelta_weeks w <=? datetime_max));
    cbn [obind] in Hrun.
  - destruct (s + timedelta_weeks w <? etime self); exact (IH _ _ _ Hrun).
  - injection Hrun as <-. reflexivity.
Qed.

(** The file estimate: the hours of the range over twelve, times the
    tile count. *)
Lemma estimNumFiles_eq (self : searchLAADS) (tiles : num) :
  numTilesForBbox self = Returns tiles ->
  exists q, estimNumFiles self = Returns (PyFloat q) /\
    (q == inject_Z (etime self - stime self) / 1000000 / 3600 / 12 * to_Q tiles)%Q.
Proof.
  intros Htiles.
  unfold estimNumFiles, total_seconds, datetime_sub, py_float.
  rewrite (py_div_float_l _ (PyInt 3600)) by discriminate.
  unfold py_float; cbn [obind].
  rewrite (py_div_float_l _ (PyInt 12)) by discriminate.
  unfold py_float; cbn [obind]. rewrite Htiles; cbn [obind].
  rewrite py_mul_float_l. unfold py_float.
  eexists. split; [reflexivity|].
  rewrite !Qred_correct. reflexivity.
Qed.

Lemma timeChunks_zero_cap (self : searchLAADS) :
  LAADSmaxFiles self = 0 -> timeChunks self = Raises ZeroDivisionError.
Proof.
  intros Hcap. destruct (numTilesForBbox_nonneg self) as (tiles & Htiles & _).
  destruct (estimNumFiles_eq self tiles Htiles) as (q & Hq & _).
  unfold timeChunks. rewrite Hq; cbn [obind].
  rewrite py_div_zero by (rewrite Hcap; reflexivity). reflexivity.
Qed.

(** C2 on every range whose start equals its end: the file estimate is
    zero, and the planner raises [ZeroDivisionError] where it divides the
    hours of the range by the chunk count, before its loop is reached;
    it returns no list, and so not the one chunk of zero width. *)
Theorem timeChunks_empty_range_raises (self : searchLAADS) :
  stime self = etime self ->
  timeChunks self = Raises ZeroDivisionError.
Proof.
  intros Hse. destruct (numTilesForBbox_nonneg self) as (tiles & Htiles & _).
  destruct (estimNumFiles_eq self tiles Htiles) as (q & Hq & Eq).
  apply (timeChunks_zero_estimate self _ Hq). cbn [to_Q]. rewrite Eq.
  replace (etime self - stime self) with 0 by lia.
  change (inject_Z 0) with 0%Q. unfold Qdiv. ring.
Qed.

Lemma timeChunks_empty_range_raises_witness :
  timeChunks (session jan_2020 jan_2020 box_40_20) = Raises ZeroDivisionError.
Proof.
  apply (timeChunks_empty_range_raises (session jan_2020 jan_2020 box_40_20)).
  reflexivity.
Defined.

(** Every chunk of a walk lies inside the range, from the start of the
    walk on. *)
Lemma walk_within (step : Z) (e s : datetime) (l : list chunk) :
  walk step e s l -> 0 < step ->
  Forall (fun c => s <= fst c /\ fst c < snd c /\ snd c <= e) l.
Proof.
  intros Hw Hstep. induction Hw as [s Hle | s l Hlt Hw IH]; constructor.
  - simpl. destruct (Z.ltb_spec (s + step) e); lia.
  - eapply Forall_impl; [exact IH|]. simpl. intros c Hc. lia.
Qed.

(** The last chunk of a walk is at most one step wide. *)
Lemma walk_last_width (step : Z) (e s : datetime) (l : list chunk) :
  walk step e s l -> 0 < step ->
  forall c, last l = Some c -> 0 < snd c - fst c <= step.
Proof.
  intros Hw Hstep. induction Hw as [s Hle | s l Hlt Hw IH]; intros c Hc.
  - discriminate.
  - destruct l as [|c' l].
    + simpl in Hc. injection Hc as <-. simpl.
      destruct (Z.ltb_spec (s + step) e); lia.
    + rewrite last_cons_cons in Hc. exact (IH c Hc).
Qed.

(** A walk makes as many chunks as steps are needed to reach the end. *)
Lemma walk_length (step : Z) (e s : datetime) (l : list chunk) :
  walk step e s l -> 0 < step -> s < e ->
  Z.of_nat (length l) = (e - s + step - 1) / step.
Proof.
  intros Hw Hstep. induction Hw as [s Hle | s l Hlt Hw IH]; intros Hs; [lia|].
  cbn [length]. rewrite Nat2Z.inj_succ.
  destruct (Z_lt_dec (s + step) e) as [Hin | Hout].
  - rewrite (IH Hin).
    replace (e - s + step - 1) with ((e - (s + step) + step - 1) + 1 * step) by lia.
    rewrite Z.div_add by lia. lia.
  - rewrite (walk_past_end _ _ _ _ Hw) by lia. simpl.
    apply Z.div_unique with (r := e - s - 1); lia.
Qed.

(** On a range that is not empty, with a cap and a tile count that are
    not zero, what the planner returns is the walk in steps of
    [chunkWeeks_of] weeks. *)
Lemma timeChunks_walk_width (self : searchLAADS) (tiles : num) (l : list chunk) :
  stime self <> etime self ->
  LAADSmaxFiles self <> 0 ->
  numTilesForBbox self = Returns tiles ->
  ~ (to_Q tiles == 0)%Q ->
  timeChunks self = Returns l ->
  walk (Qceiling (inject_Z (LAADSmaxFiles self) / (14 * to_Q tiles)) * us_per_week)
       (etime self) (stime self) l.
Proof.
  intros Hse Hcap Htiles Hnz Hrun.
  rewrite (timeChunks_unfold self tiles Hse Hcap Htiles Hnz) in Hrun.
  destruct (chunk_loop_walk _ _ _ _ _ _ Hrun) as (tail & -> & Hw).
  unfold chunkWeeks_of in Hw. rewrite timedelta_weeks_int in Hw. exact Hw.
Qed.

(** X1.  The planner raises [ZeroDivisionError] exactly when the range
    is empty, the tile count is zero, or the cap is zero. *)
Theorem timeChunks_ZeroDivisionError_iff (self : searchLAADS) (tiles : num) :
  numTilesForBbox self = Returns tiles ->
  (timeChunks self = Raises ZeroDivisionError <->
   stime self = etime self \/ (to_Q tiles == 0)%Q \/ LAADSmaxFiles self = 0).
Proof.
  intros Htiles. split.
  - intros Hraise.
    destruct (Z.eq_dec (stime self) (etime self)) as [Hse | Hse]; [left; exact Hse|].
    destruct (Qeq_dec (to_Q tiles) 0) as [Ht | Ht]; [right; left; exact Ht|].
    destruct (Z.eq_dec (LAADSmaxFiles self) 0) as [Hcap | Hcap]; [right; right; exact Hcap|].
    rewrite (timeChunks_unfold self tiles Hse Hcap Htiles Ht) in Hraise.
    apply chunk_loop_raises in Hraise. discriminate.
  - destruct (estimNumFiles_eq self tiles Htiles) as (q & Hq & Eq).
    intros [Hse | [Ht | Hcap]].
    + apply (timeChunks_zero_estimate self _ Hq). cbn [to_Q]. rewrite Eq.
      replace (etime self - stime self) with 0 by lia.
      change (inject_Z 0) with 0%Q. unfold Qdiv. ring.
    + apply (timeChunks_zero_estimate self _ Hq). cbn [to_Q]. rewrite Eq, Ht. ring.
    + apply timeChunks_zero_cap. exact Hcap.
Qed.

Lemma timeChunks_ZeroDivisionError_iff_witness :
  timeChunks (session jan_2020 jan_2020 box_40_20) = Raises ZeroDivisionError <->
  jan_2020 = jan_2020 \/ (to_Q (PyFloat 4) == 0)%Q \/ 1000 = 0.
Proof.
  apply (timeChunks_ZeroDivisionError_iff (session jan_2020 jan_2020 box_40_20) (PyFloat 4)).
  vm_compute. reflexivity.
Defined.

(** On two int bounds the factor is the floored quotient, by absolute
    value: rounding up comes too late to change it. *)
Lemma cells_int (x y : Z) : cells (PyInt x) (PyInt y) = Z.abs ((x - y) / 20).
Proof. unfold cells, py_sub, quot20, py_abs, to_Q. apply Qceiling_Z. Qed.

(** With the cap of the class the quotient the planner rounds up is 125
    over seven times a whole number, which is never whole: rounding it
    up is flooring it and adding one. *)
Lemma default_cap_weeks (m : Z) :
  1 <= m ->
  Qceiling (inject_Z 1000 / (14 * inject_Z (4 * m))) = 125 / (7 * m) + 1.
Proof.
  intros Hm.
  rewrite (Qceiling_comp _ (1000 # Z.to_pos (56 * m))).
  2:{ rewrite (Qmake_Qdiv 1000), Z2Pos.id by lia.
      change 14%Q with (inject_Z 14). rewrite <- inject_Z_mult.
      replace (14 * (4 * m)) with (56 * m) by lia. reflexivity. }
  unfold Qceiling, Qfloor, Qopp. cbn [Qnum Qden]. rewrite Z2Pos.id by lia.
  pose proof (Z.div_mod 125 (7 * m) ltac:(lia)) as Hdm.
  pose proof (Z.mod_pos_bound 125 (7 * m) ltac:(lia)) as Hr.
  set (q := 125 / (7 * m)) in *. set (r := 125 mod (7 * m)) in *.
  assert (Hr0 : r <> 0) by (intros E; rewrite E in Hdm; lia).
  assert (E : (- 1000) / (56 * m) = - (q + 1)).
  { symmetry. apply Z.div_unique with (r := 56 * m - 8 * r); lia. }
  change (- (1000)) with (- 1000). rewrite E. lia.
Qed.

(** On an extent in whole degrees the tile count is four times the
    product of the two floored spans, and with the cap of the class the
    planner steps by 125 over seven times that product, floored, plus
    one, in weeks. *)
Lemma chunkWeeks_of_default (self : searchLAADS) (north south west east : Z) :
  bbox self = (PyInt north, PyInt south, PyInt west, PyInt east) ->
  LAADSmaxFiles self = 1000 ->
  let m := Z.abs ((west - east) / 20) * Z.abs ((north - south) / 20) in
  numTilesForBbox self = Returns (PyFloat (inject_Z (4 * m))) /\
  (1 <= m ->
   chunkWeeks_of self (PyFloat (inject_Z (4 * m))) = PyFloat (inject_Z (125 / (7 * m) + 1))).
Proof.
  intros Hb Hcap m. split.
  - rewrite numTilesForBbox_eq. unfold bbox_0, bbox_1, bbox_2, bbox_3. rewrite Hb.
    rewrite !cells_int. do 3 f_equal. subst m. lia.
  - intros Hm. unfold chunkWeeks_of. rewrite Hcap. cbn [to_Q].
    rewrite (default_cap_weeks m Hm). reflexivity.
Qed.

(** What the planner returns on a forward range, for an extent in whole
    degrees and the cap of the class, is the walk in steps of that many
    weeks; and it returns only where both floored spans are not zero. *)
Lemma timeChunks_walk_default (self : searchLAADS) (north south west east : Z)
    (l : list chunk) :
  bbox self = (PyInt north, PyInt south, PyInt west, PyInt east) ->
  LAADSmaxFiles self = 1000 ->
  stime self < etime self ->
  timeChunks self = Returns l ->
  let m := Z.abs ((west - east) / 20) * Z.abs ((north - south) / 20) in
  1 <= m /\
  walk ((125 / (7 * m) + 1) * us_per_week) (etime self) (stime self) l.
Proof.
  intros Hb Hcap Hse Hrun m.
  destruct (chunkWeeks_of_default self north south west east Hb Hcap) as [Htiles Hweeks].
  fold m in Htiles, Hweeks.
  assert (Hm : 1 <= m).
  { destruct (Z.eq_dec m 0) as [E | E]; [|subst m; lia].
    exfalso. rewrite E in Htiles.
    destruct (estimNumFiles_eq self _ Htiles) as (q & Hq & Eq).
    rewrite (timeChunks_zero_estimate self _ Hq) in Hrun; [discriminate|].
    cbn [to_Q] in *. rewrite Eq. change (inject_Z (4 * 0)) with 0%Q. ring. }
  split; [exact Hm|].
  assert (Hnz : ~ (to_Q (PyFloat (inject_Z (4 * m))) == 0)%Q)
    by (apply inject_Z_nonzero; lia).
  rewrite (timeChunks_unfold self _ ltac:(lia) ltac:(lia) Htiles Hnz) in Hrun.
  destruct (chunk_loop_walk _ _ _ _ _ _ Hrun) as (tail & -> & Hw).
  rewrite (Hweeks Hm), timedelta_weeks_int in Hw. exact Hw.
Qed.

(** X2.  For an extent in whole degrees and the cap of the class, 1000,
    the width of the chunks on a forward range depends on the extent
    only, not on the range: with [m] the product of the two floored
    spans, every chunk but the last is [125 / (7 * m) + 1] weeks wide,
    between one week and eighteen, and the last chunk is at most that
    wide. *)
Theorem timeChunks_chunk_width (self : searchLAADS) (north south west east : Z)
    (l : list chunk) :
  whole_degrees self north south west east ->
  LAADSmaxFiles self = 1000 ->
  stime self < etime self ->
  timeChunks self = Returns l ->
  let m := Z.abs ((west - east) / 20) * Z.abs ((north - south) / 20) in
  let k := 125 / (7 * m) + 1 in
  1 <= k <= 18 /\
  (forall (i : nat) (c : chunk),
      l !! i = Some c -> (S i < length l)%nat -> snd c - fst c = k * us_per_week) /\
  (forall c : chunk, last l = Some c -> 0 < snd c - fst c <= k * us_per_week).
Proof.
  intros [Hb _] Hcap Hse Hrun m k.
  destruct (timeChunks_walk_default self north south west east l Hb Hcap Hse Hrun)
    as [Hm Hw].
  fold m in Hm, Hw. fold k in Hw.
  assert (Hk : 1 <= k <= 18).
  { subst k. pose proof (Z.div_pos 125 (7 * m) ltac:(lia) ltac:(lia)).
    pose proof (Z.div_le_compat_l 125 7 (7 * m) ltac:(lia) ltac:(lia)) as Hle.
    change (125 / 7) with 17 in Hle. lia. }
  assert (Hstep : 0 < k * us_per_week)
    by (unfold us_per_week, us_per_second; lia).
  split; [exact Hk|]. split.
  - exact (walk_widths _ _ _ _ Hw).
  - exact (walk_last_width _ _ _ _ Hw Hstep).
Qed.

Lemma timeChunks_chunk_width_witness :
  exists l, timeChunks (session jan_2020 jan_2022 box_40_20) = Returns l /\
  let m := Z.abs ((-100 - -80) / 20) * Z.abs ((40 - 20) / 20) in
  let k := 125 / (7 * m) + 1 in
  1 <= k <= 18 /\
  (forall (i : nat) (c : chunk),
      l !! i = Some c -> (S i < length l)%nat -> snd c - fst c = k * us_per_week) /\
  (forall c : chunk, last l = Some c -> 0 < snd c - fst c <= k * us_per_week).
Proof.
  eexists. split.
  - vm_compute. reflexivity.
  - apply (timeChunks_chunk_width (session jan_2020 jan_2022 box_40_20) 40 20 (-100) (-80)).
    + split; [reflexivity|]. lia.
    + reflexivity.
    + reflexivity.
    + vm_compute. reflexivity.
Defined.

(** X3.  For an extent in whole degrees and the cap of the class, the
    number of chunks, and so of searches, is the length of the range
    divided by the chunk width of [125 / (7 * m) + 1] weeks, rounded
    up. *)
Theorem timeChunks_chunk_count (self : searchLAADS) (north south west east : Z)
    (l : list chunk) :
  whole_degrees self north south west east ->
  LAADSmaxFiles self = 1000 ->
  stime self < etime self ->
  timeChunks self = Returns l ->
  let m := Z.abs ((west - east) / 20) * Z.abs ((north - south) / 20) in
  let width := (125 / (7 * m) + 1) * us_per_week in
  Z.of_nat (length l) = (etime self - stime self + width - 1) / width.
Proof.
  intros [Hb _] Hcap Hse Hrun m width.
  destruct (timeChunks_walk_default self north south west east l Hb Hcap Hse Hrun)
    as [Hm Hw].
  fold m in Hw. fold width in Hw.
  exact (walk_length _ _ _ _ Hw (walk_forward _ _ _ _ Hw Hse) Hse).
Qed.

Lemma timeChunks_chunk_count_witness :
  exists l, timeChunks (session jan_2020 jan_2022 box_40_20) = Returns l /\
  let m := Z.abs ((-100 - -80) / 20) * Z.abs ((40 - 20) / 20) in
  let width := (125 / (7 * m) + 1) * us_per_week in
  Z.of_nat (length l) = (jan_2022 - jan_2020 + width - 1) / width.
Proof.
  eexists. split.
  - vm_compute. reflexivity.
  - apply (timeChunks_chunk_count (session jan_2020 jan_2022 box_40_20) 40 20 (-100) (-80)).
    + split; [reflexivity|]. lia.
    + reflexivity.
    + reflexivity.
    + vm_compute. reflexivity.
Defined.

(** X4.  For an extent in whole degrees whose two floored spans are not
    zero and the cap of the class, the planner does return a chunk list,
    and not the empty one, whenever the range runs forward from a date
    of the calendar and one chunk width past the end of the range is
    still inside the calendar. *)
Theorem timeChunks_terminates (self : searchLAADS) (north south west east : Z) :
  whole_degrees self north south west east ->
  LAADSmaxFiles self = 1000 ->
  (west - east) / 20 <> 0 ->
  (north - south) / 20 <> 0 ->
  0 <= stime self < etime self ->
  (let m := Z.abs ((west - east) / 20) * Z.abs ((north - south) / 20) in
   etime self + (125 / (7 * m) + 1) * us_per_week <= datetime_max + 1) ->
  exists l, timeChunks self = Returns l /\ l <> [].
Proof.
  intros [Hb _] Hcap Hwe Hns [Hs Hse] Hmax.
  destruct (chunkWeeks_of_default self north south west east Hb Hcap) as [Htiles Hweeks].
  cbv zeta in Hmax, Htiles, Hweeks.
  set (m := Z.abs ((west - east) / 20) * Z.abs ((north - south) / 20)) in *.
  assert (Hm : 1 <= m) by (subst m; nia).
  assert (Hnz : ~ (to_Q (PyFloat (inject_Z (4 * m))) == 0)%Q)
    by (apply inject_Z_nonzero; lia).
  destruct (timeChunks_returns self _ Hse ltac:(lia) Htiles Hnz Hs) as [l Hrun].
  { rewrite (Hweeks Hm), timedelta_weeks_int. exact Hmax. }
  exists l. split; [exact Hrun|].
  intros ->. destruct (timeChunks_walk _ _ Hrun) as [k Hw].
  inversion Hw. lia.
Qed.

Lemma timeChunks_terminates_witness :
  exists l, timeChunks (session jan_2020 jan_2022 box_40_20) = Returns l /\ l <> [].
Proof.
  apply (timeChunks_terminates (session jan_2020 jan_2022 box_40_20) 40 20 (-100) (-80)).
  - split; [reflexivity|]. lia.
  - reflexivity.
  - vm_compute. discriminate.
  - vm_compute. discriminate.
  - split; [vm_compute; discriminate | reflexivity].
  - vm_compute. discriminate.
Defined.

(** X5.  Whatever list the planner returns, each of its chunks lies
    inside the range and runs forward. *)
Theorem timeChunks_chunks_within_range (self : searchLAADS) (l : list chunk) :
  timeChunks self = Returns l ->
  Forall (fun c => stime self <= fst c /\ fst c < snd c /\ snd c <= etime self) l.
Proof.
  intros Hrun. destruct (timeChunks_walk _ _ Hrun) as [k Hw].
  destruct (Z_lt_dec (stime self) (etime self)) as [Hse | Hse].
  - exact (walk_within _ _ _ _ Hw (walk_forward _ _ _ _ Hw Hse)).
  - rewrite (walk_past_end _ _ _ _ Hw) by lia. constructor.
Qed.

Lemma timeChunks_chunks_within_range_witness :
  exists l, timeChunks (session jan_2020 jan_2022 box_40_20) = Returns l /\
  Forall (fun c => jan_2020 <= fst c /\ fst c < snd c /\ snd c <= jan_2022) l.
Proof.
  eexists. split.
  - vm_compute. reflexivity.
  - apply (timeChunks_chunks_within_range (session jan_2020 jan_2022 box_40_20)).
    vm_compute. reflexivity.
Defined.

(** Every chunk of a walk is at most one step wide. *)
Lemma walk_width_le (step : Z) (e s : datetime) (l : list chunk) :
  walk step e s l -> 0 < step -> Forall (fun c => snd c - fst c <= step) l.
Proof.
  intros Hw Hstep. induction Hw as [s Hle | s l Hlt Hw IH]; constructor.
  - simpl. destruct (Z.ltb_spec (s + step) e); lia.
  - exact IH.
Qed.

(** ** More on the extent estimator *)

Lemma Qceiling_over_20 (m : Z) : Qceiling (inject_Z m / 20) = - ((- m) / 20).
Proof.
  rewrite <- (Qceiling_comp (m # 20)) by apply Qmake_Qdiv. reflexivity.
Qed.

Lemma Qabs_inject_Z_minus (x y : Z) :
  (Qabs (inject_Z x - inject_Z y) == inject_Z (Z.abs (x - y)))%Q.
Proof.
  unfold Qminus. rewrite <- inject_Z_opp, <- inject_Z_plus. reflexivity.
Qed.

(** Trading the two bounds of a pair changes its factor by one at most. *)
Lemma cells_swap (a b : num) : Z.abs (cells a b - cells b a) <= 1.
Proof.
  destruct a as [x | p], b as [y | q];
    try (rewrite cells_exact_sym by exact I; rewrite Z.sub_diag; simpl; lia).
  rewrite !cells_int.
  pose proof (Z.div_mod (x - y) 20). pose proof (Z.mod_pos_bound (x - y) 20).
  pose proof (Z.div_mod (y - x) 20). pose proof (Z.mod_pos_bound (y - x) 20).
  lia.
Qed.

(** The estimate as four times a product of two factors. *)
Lemma numTilesForBbox_multiple_of_four_aux (self : searchLAADS) :
  exists z, 0 <= z /\ numTilesForBbox self = Returns (PyFloat (inject_Z (4 * z))).
Proof.
  exists (cells (bbox_2 self) (bbox_3 self) * cells (bbox_0 self) (bbox_1 self)).
  pose proof (cells_nonneg (bbox_2 self) (bbox_3 self)).
  pose proof (cells_nonneg (bbox_0 self) (bbox_1 self)).
  split; [nia|]. rewrite numTilesForBbox_eq. do 3 f_equal. lia.
Qed.

(** X6.  The estimate is always there and is four times a whole number
    that is not negative: the estimator never raises, and it counts 0,
    4, 8, ... tiles. *)
Theorem numTilesForBbox_multiple_of_four (self : searchLAADS) :
  exists z, 0 <= z /\ numTilesForBbox self = Returns (PyFloat (inject_Z (4 * z))).
Proof.
  exists (cells (bbox_2 self) (bbox_3 self) * cells (bbox_0 self) (bbox_1 self)).
  pose proof (cells_nonneg (bbox_2 self) (bbox_3 self)).
  pose proof (cells_nonneg (bbox_0 self) (bbox_1 self)).
  split; [nia|]. rewrite numTilesForBbox_eq. do 3 f_equal. lia.
Qed.

(** The factor of the design on two whole degrees. *)
Lemma design_cells_int (x y : Z) :
  Qceiling (Qabs (inject_Z x - inject_Z y) / 20) = - ((- Z.abs (x - y)) / 20).
Proof.
  rewrite (Qceiling_comp _ (inject_Z (Z.abs (x - y)) / 20))
    by (rewrite Qabs_inject_Z_minus; reflexivity).
  apply Qceiling_over_20.
Qed.

(** The factor of the code against the one of the design, on two whole
    degrees: never above it, and level with it exactly when the first
    bound is not above the second or the two are a multiple of 20
    apart. *)
Lemma span_int (x y : Z) :
  let c := Z.abs ((x - y) / 20) in
  let d := - ((- Z.abs (x - y)) / 20) in
  0 <= c <= d /\ (d = 0 <-> x = y) /\ (c = d <-> x <= y \/ (20 | x - y)).
Proof.
  intros c d. subst c d.
  pose proof (Z.div_mod (x - y) 20 ltac:(lia)) as H1.
  pose proof (Z.mod_pos_bound (x - y) 20 ltac:(lia)) as H2.
  pose proof (Z.div_mod (- Z.abs (x - y)) 20 ltac:(lia)) as H3.
  pose proof (Z.mod_pos_bound (- Z.abs (x - y)) 20 ltac:(lia)) as H4.
  split; [lia|]. split; [lia|]. split.
  - intros E. destruct (Z_le_dec x y) as [Hle | Hgt]; [left; exact Hle|].
    right. exists ((x - y) / 20). lia.
  - intros [Hle | [k Hk]]; lia.
Qed.

(** X7.  For an extent in whole degrees the estimate is never above the
    tile count of the design, the two spans by absolute value over 20,
    rounded up and doubled; and it is that count exactly when the extent
    is flat (the design then counts no tile either), or each pair of
    bounds is in rising order or a multiple of 20 apart. *)
Theorem numTilesForBbox_at_most_design (self : searchLAADS) (north south west east : Z) :
  whole_degrees self north south west east ->
  exists z,
    numTilesForBbox self = Returns (PyFloat (inject_Z z)) /\
    0 <= z <= tileCount_spec (inject_Z north) (inject_Z south)
                             (inject_Z west) (inject_Z east) /\
    (z = tileCount_spec (inject_Z north) (inject_Z south)
                        (inject_Z west) (inject_Z east) <->
     north = south \/ west = east \/
     ((north <= south \/ (20 | north - south)) /\
      (west <= east \/ (20 | west - east)))).
Proof.
  intros [Hb _]. eexists. split; [apply numTilesForBbox_eq|].
  unfold bbox_0, bbox_1, bbox_2, bbox_3. rewrite Hb. unfold tileCount_spec.
  rewrite !cells_int, !design_cells_int.
  destruct (span_int north south) as (Hns & Zns & Ens).
  destruct (span_int west east) as (Hwe & Zwe & Ewe).
  cbv zeta in *.
  set (a := Z.abs ((north - south) / 20)) in *.
  set (A := - ((- Z.abs (north - south)) / 20)) in *.
  set (b := Z.abs ((west - east) / 20)) in *.
  set (B := - ((- Z.abs (west - east)) / 20)) in *.
  split; [nia|]. split.
  - intros E.
    destruct (Z.eq_dec north south) as [|Nns]; [left; assumption|].
    destruct (Z.eq_dec west east) as [|Nwe]; [right; left; assumption|].
    right; right.
    assert (HA : 1 <= A) by (destruct (Z.eq_dec A 0) as [E0|]; [apply Zns in E0|]; lia).
    assert (HB : 1 <= B) by (destruct (Z.eq_dec B 0) as [E0|]; [apply Zwe in E0|]; lia).
    assert (Ea : a = A) by nia.
    assert (Eb : b = B) by nia.
    split; [apply Ens; exact Ea | apply Ewe; exact Eb].
  - intros [E | [E | [Hn Hw]]].
    + apply Zns in E. assert (a = 0) by lia. nia.
    + apply Zwe in E. assert (b = 0) by lia. nia.
    + apply Ens in Hn. apply Ewe in Hw. rewrite Hn, Hw. lia.
Qed.

Lemma numTilesForBbox_at_most_design_witness :
  exists z,
    numTilesForBbox (session jan_2020 mar_2020 box_40_20) = Returns (PyFloat (inject_Z z)) /\
    0 <= z <= tileCount_spec (inject_Z 40) (inject_Z 20) (inject_Z (-100)) (inject_Z (-80)) /\
    (z = tileCount_spec (inject_Z 40) (inject_Z 20) (inject_Z (-100)) (inject_Z (-80)) <->
     40 = 20 \/ -100 = -80 \/
     ((40 <= 20 \/ (20 | 40 - 20)) /\ (-100 <= -80 \/ (20 | -100 - -80)))).
Proof.
  apply (numTilesForBbox_at_most_design (session jan_2020 mar_2020 box_40_20) 40 20 (-100) (-80)).
  split; [reflexivity|]. lia.
Defined.

(** X8.  Trading north and south, or west and east, changes the factor
    of that pair by one at most and leaves the other factor alone: the
    two estimates are four times [a * c] and four times [b * c] with [a]
    and [b] at most one apart. *)
Theorem numTilesForBbox_swap_at_most_one (self self' : searchLAADS)
    (north south west east : num) :
  bbox self = (north, south, west, east) ->
  (bbox self' = (south, north, west, east) \/ bbox self' = (north, south, east, west)) ->
  exists a b c,
    0 <= c /\ Z.abs (a - b) <= 1 /\
    numTilesForBbox self = Returns (PyFloat (inject_Z (4 * (a * c)))) /\
    numTilesForBbox self' = Returns (PyFloat (inject_Z (4 * (b * c)))).
Proof.
  intros Hb Hb'. rewrite !numTilesForBbox_eq.
  unfold bbox_0, bbox_1, bbox_2, bbox_3. rewrite Hb.
  destruct Hb' as [-> | ->].
  - exists (cells north south), (cells south north), (cells west east).
    split; [apply cells_nonneg|]. split; [apply cells_swap|].
    split; do 3 f_equal; lia.
  - exists (cells west east), (cells east west), (cells north south).
    split; [apply cells_nonneg|]. split; [apply cells_swap|].
    split; do 3 f_equal; lia.
Qed.

Lemma numTilesForBbox_swap_at_most_one_witness :
  exists a b c,
    0 <= c /\ Z.abs (a - b) <= 1 /\
    numTilesForBbox
      (session jan_2020 mar_2020 (PyInt 30, PyInt 20, PyInt (-100), PyInt (-80)))
    = Returns (PyFloat (inject_Z (4 * (a * c)))) /\
    numTilesForBbox
      (session jan_2020 mar_2020 (PyInt 20, PyInt 30, PyInt (-100), PyInt (-80)))
    = Returns (PyFloat (inject_Z (4 * (b * c)))).
Proof.
  apply (numTilesForBbox_swap_at_most_one
           (session jan_2020 mar_2020 (PyInt 30, PyInt 20, PyInt (-100), PyInt (-80)))
           (session jan_2020 mar_2020 (PyInt 20, PyInt 30, PyInt (-100), PyInt (-80)))
           (PyInt 30) (PyInt 20) (PyInt (-100)) (PyInt (-80))).
  - reflexivity.
  - left. reflexivity.
Defined.

(** X9.  With int bounds for north and south, north at or above south
    and less than 20 degrees above it, the tile count is zero and the
    planner raises [ZeroDivisionError], whatever the range and the other
    two bounds. *)
Theorem timeChunks_low_int_extent_raises (self : searchLAADS) (north south : Z)
    (west east : num) :
  bbox self = (PyInt north, PyInt south, west, east) ->
  0 <= north - south < 20 ->
  numTilesForBbox self = Returns (PyFloat 0) /\
  timeChunks self = Raises ZeroDivisionError.
Proof.
  intros Hb Hspan.
  assert (Htiles : numTilesForBbox self = Returns (PyFloat 0)).
  { rewrite numTilesForBbox_eq. unfold bbox_0, bbox_1, bbox_2, bbox_3. rewrite Hb.
    rewrite cells_int, Z.div_small by lia. cbn [Z.abs]. rewrite Z.mul_0_r. reflexivity. }
  split; [exact Htiles|].
  destruct (estimNumFiles_eq self _ Htiles) as (q & Hq & Eq).
  apply (timeChunks_zero_estimate self _ Hq). cbn [to_Q] in *. rewrite Eq. ring.
Qed.

Lemma timeChunks_low_int_extent_raises_witness :
  numTilesForBbox
    (session jan_2020 jan_2022 (PyInt 45, PyInt 30, PyInt (-100), PyInt (-80)))
  = Returns (PyFloat 0) /\
  timeChunks (session jan_2020 jan_2022 (PyInt 45, PyInt 30, PyInt (-100), PyInt (-80)))
  = Raises ZeroDivisionError.
Proof.
  apply (timeChunks_low_int_extent_raises
           (session jan_2020 jan_2022 (PyInt 45, PyInt 30, PyInt (-100), PyInt (-80)))
           45 30 (PyInt (-100)) (PyInt (-80))).
  - reflexivity.
  - lia.
Defined.

(** X10.  With the cap of the class, 1000, no chunk the planner returns
    is wider than 18 weeks, whatever the extent and the range. *)
Theorem timeChunks_default_cap_width (self : searchLAADS) (l : list chunk) :
  LAADSmaxFiles self = 1000 ->
  timeChunks self = Returns l ->
  Forall (fun c => snd c - fst c <= 18 * us_per_week) l.
Proof.
  intros Hcap Hrun.
  destruct (Z_lt_dec (stime self) (etime self)) as [Hse | Hse].
  2:{ destruct (timeChunks_walk _ _ Hrun) as [k Hw].
      rewrite (walk_past_end _ _ _ _ Hw) by lia. constructor. }
  destruct (numTilesForBbox_multiple_of_four_aux self) as (z & Hz & Htiles).
  assert (Hnz : ~ (to_Q (PyFloat (inject_Z (4 * z))) == 0)%Q).
  { intros Ht.
    assert (Hraise : timeChunks self = Raises ZeroDivisionError).
    { destruct (estimNumFiles_eq self _ Htiles) as (q & Hq & Eq).
      apply (timeChunks_zero_estimate self _ Hq). cbn [to_Q] in *. rewrite Eq, Ht. ring. }
    rewrite Hraise in Hrun. discriminate. }
  assert (Hz1 : 1 <= z).
  { destruct (Z.eq_dec z 0) as [-> | ?]; [|lia]. exfalso. apply Hnz. reflexivity. }
  pose proof (timeChunks_walk_width self _ l ltac:(lia) ltac:(lia) Htiles Hnz Hrun) as Hw.
  pose proof (walk_forward _ _ _ _ Hw Hse) as Hstep.
  eapply Forall_impl; [exact (walk_width_le _ _ _ _ Hw Hstep)|].
  intros c Hc. cbn beta in Hc.
  assert (Hk : Qceiling (inject_Z (LAADSmaxFiles self) / (14 * to_Q (PyFloat (inject_Z (4 * z)))))
               <= 18).
  { rewrite <- (Qceiling_Z 18). apply Qceiling_resp_le. rewrite Hcap. cbn [to_Q].
    assert (Hpos : (0 < 14 * inject_Z (4 * z))%Q).
    { apply Qmult_lt_0_compat; [reflexivity|].
      change 0%Q with (inject_Z 0). rewrite <- Zlt_Qlt. lia. }
    apply Qle_shift_div_r; [exact Hpos|].
    change 14%Q with (inject_Z 14). rewrite <- !inject_Z_mult, <- Zle_Qle. lia. }
  unfold us_per_week, us_per_second in *. nia.
Qed.

Lemma timeChunks_default_cap_width_witness :
  exists l, timeChunks (session jan_2020 jan_2022 box_40_20) = Returns l /\
            Forall (fun c => snd c - fst c <= 18 * us_per_week) l.
Proof.
  eexists. split.
  - vm_compute. reflexivity.
  - apply (timeChunks_default_cap_width (session jan_2020 jan_2022 box_40_20)).
    + reflexivity.
    + vm_compute. reflexivity.
Defined.

(** The planner does not look at the URLs of the session. *)
Lemma chunk_loop_set_fileURLs (fuel : nat) (self : searchLAADS) (urls : list string)
    (w : num) :
  forall (s : datetime) (acc : list chunk),
    chunk_loop fuel (set_fileURLs self urls) w s acc = chunk_loop fuel self w s acc.
Proof.
  induction fuel as [|fuel IH]; intros s acc; [reflexivity|].
  simpl. destruct (s <? etime self); [|reflexivity].
  destruct (datetime_add s (timedelta_weeks w)) as [t | |]; cbn [obind]; try reflexivity.
  apply IH.
Qed.

Lemma timeChunks_set_fileURLs (self : searchLAADS) (urls : list string) :
  timeChunks (set_fileURLs self urls) = timeChunks self.
Proof.
  unfold timeChunks.
  change (estimNumFiles (set_fileURLs self urls)) with (estimNumFiles self).
  destruct (estimNumFiles self) as [numFiles | |]; cbn [obind]; try reflexivity.
  change (LAADSmaxFiles (set_fileURLs self urls)) with (LAADSmaxFiles self).
  destruct (py_div numFiles _) as [numChunks | |]; cbn [obind]; try reflexivity.
  change (etime (set_fileURLs self urls)) with (etime self).
  change (stime (set_fileURLs self urls)) with (stime self).
  destruct (py_div (total_seconds _) _) as [deltaHours | |]; cbn [obind]; try reflexivity.
  destruct (py_div deltaHours numChunks) as [chunkHours | |]; cbn [obind]; try reflexivity.
  destruct (py_div chunkHours _) as [weeks | |]; cbn [obind]; try reflexivity.
  rewrite chunk_loop_set_fileURLs. reflexivity.
Qed.

(** ** More on the orchestrator *)

Section OrchestratorRuns.

Context `{Server}.
Variable strftime : datetime -> string.

(** The loop in full: the session it returns and the world it leaves. *)
Lemma searchFiles_loop_run (tchunks : list chunk) :
  forall (self : searchLAADS) (w : world),
    searchFiles_loop strftime self tchunks w =
    (Returns (set_fileURLs self (fileURLs self ++ chunk_urls strftime self tchunks)),
     {| fs := fs w; stdout := stdout w;
        calls := calls w ++ flat_map (chunk_calls strftime self) tchunks |}).
Proof.
  induction tchunks as [|c rest IH]; intros self w.
  - unfold chunk_urls. simpl. unfold mret. rewrite !app_nil_r.
    destruct self, w; reflexivity.
  - simpl searchFiles_loop. unfold mbind at 1.
    unfold searchFiles_body, mbind, server_searchForFiles, server_getFileUrls, mret.
    rewrite IH. f_equal.
    + f_equal. unfold set_fileURLs;
        cbn [product collection stime etime bbox cot dnb fileURLs LAADSmaxFiles].
      f_equal. unfold chunk_urls. simpl flat_map. rewrite <- app_assoc. reflexivity.
    + cbn [fs stdout calls]. f_equal. simpl flat_map. rewrite <- !app_assoc. reflexivity.
Qed.

(** A whole search on a plan. *)
Lemma searchFiles_run (self : searchLAADS) (tchunks : list chunk) (w : world) :
  timeChunks self = Returns tchunks ->
  searchFiles strftime self w =
  (Returns (set_fileURLs self (fileURLs self ++ chunk_urls strftime self tchunks)),
   {| fs := fs w;
      stdout := stdout w ++ [if (1 <? length tchunks)%nat then MsgManyFiles else MsgSearching];
      calls := calls w ++ flat_map (chunk_calls strftime self) tchunks |}).
Proof.
  intros Hplan. unfold searchFiles, mbind at 1, mlift. rewrite Hplan.
  unfold mbind. destruct (1 <? length tchunks)%nat; unfold print;
    rewrite searchFiles_loop_run; reflexivity.
Qed.

Lemma length_chunk_urls (self : searchLAADS) (tchunks : list chunk) :
  length (chunk_urls strftime self tchunks) =
  list_sum (map (fun c => length (getFileUrls
                   (join "," (searchForFiles (chunk_query strftime self c)))))
                tchunks).
Proof.
  unfold chunk_urls. induction tchunks as [|c rest IH]; [reflexivity|].
  simpl. rewrite length_app, IH. reflexivity.
Qed.

(** X11.  When the planner raises, the search raises the same error
    before anything else happens: no remote call is made, nothing is
    printed, and the session keeps its URLs. *)
Theorem searchFiles_planner_raises (self : searchLAADS) (e : exn) (w : world) :
  timeChunks self = Raises e ->
  searchFiles strftime self w = (Raises e, w).
Proof.
  intros Hplan. unfold searchFiles, mbind, mlift. rewrite Hplan. reflexivity.
Qed.

(** X12.  A search appends to the URLs of the session the URLs resolved
    for each chunk, in the order of the chunks and, inside a chunk, in
    the order the server gave them; what the session held before stays
    in front. *)
Theorem searchFiles_appends_urls (self self' : searchLAADS)
    (tchunks : list chunk) (w w' : world) :
  timeChunks self = Returns tchunks ->
  searchFiles strftime self w = (Returns self', w') ->
  fileURLs self' = fileURLs self ++ chunk_urls strftime self tchunks /\
  length (fileURLs self') =
    (length (fileURLs self) +
     list_sum (map (fun c => length (getFileUrls
                      (join "," (searchForFiles (chunk_query strftime self c)))))
                   tchunks))%nat.
Proof.
  intros Hplan Hrun. rewrite (searchFiles_run self tchunks w Hplan) in Hrun.
  injection Hrun as <- _. cbn [fileURLs set_fileURLs]. split; [reflexivity|].
  rewrite length_app, length_chunk_urls. reflexivity.
Qed.

(** X13.  A search leaves the file system alone and prints one line:
    the warning about many files when the plan has more than one chunk,
    the plain notice otherwise. *)
Theorem searchFiles_prints_once (self self' : searchLAADS)
    (tchunks : list chunk) (w w' : world) :
  timeChunks self = Returns tchunks ->
  searchFiles strftime self w = (Returns self', w') ->
  fs w' = fs w /\
  stdout w' = stdout w ++ [if (1 <? length tchunks)%nat then MsgManyFiles else MsgSearching].
Proof.
  intros Hplan Hrun. rewrite (searchFiles_run self tchunks w Hplan) in Hrun.
  injection Hrun as _ <-. split; reflexivity.
Qed.

(** X14.  The URL list is not reset between searches: a second search
    on the session the first one returned plans the same chunks, makes
    the same calls again, and appends the same URLs a second time. *)
Theorem searchFiles_twice (self : searchLAADS) (tchunks : list chunk) (w : world) :
  timeChunks self = Returns tchunks ->
  exists self1 w1 self2 w2,
    searchFiles strftime self w = (Returns self1, w1) /\
    searchFiles strftime self1 w1 = (Returns self2, w2) /\
    fileURLs self2 =
      fileURLs self ++ chunk_urls strftime self tchunks ++ chunk_urls strftime self tchunks /\
    calls w2 =
      calls w ++ flat_map (chunk_calls strftime self) tchunks
              ++ flat_map (chunk_calls strftime self) tchunks.
Proof.
  intros Hplan.
  set (self1 := set_fileURLs self (fileURLs self ++ chunk_urls strftime self tchunks)).
  assert (Hplan1 : timeChunks self1 = Returns tchunks)
    by (subst self1; rewrite timeChunks_set_fileURLs; exact Hplan).
  eexists self1, _, _, _. split; [exact (searchFiles_run self tchunks w Hplan)|].
  split; [exact (searchFiles_run self1 tchunks _ Hplan1)|].
  cbn [fileURLs set_fileURLs calls]. subst self1. cbn [fileURLs set_fileURLs].
  rewrite <- !app_assoc. split; reflexivity.
Qed.

End OrchestratorRuns.

Lemma searchFiles_planner_raises_witness :
  @searchFiles empty_catalog no_format (session jan_2020 jan_2020 box_40_20) empty_world
  = (Raises ZeroDivisionError, empty_world).
Proof.
  apply (@searchFiles_planner_raises empty_catalog no_format
           (session jan_2020 jan_2020 box_40_20)).
  vm_compute. reflexivity.
Defined.

Lemma searchFiles_appends_urls_witness :
  let self := set_fileURLs (session jan_2020 mar_2020 box_40_20) ["ftp://host/old.hdf"] in
  exists self' w',
    @searchFiles sample_catalog no_format self empty_world = (Returns self', w') /\
    fileURLs self' =
      fileURLs self ++
      @chunk_urls sample_catalog no_format self [(jan_2020, mar_2020)] /\
    length (fileURLs self') =
      (length (fileURLs self) +
       list_sum (map (fun c => length (@getFileUrls sample_catalog
                        (join "," (@searchForFiles sample_catalog
                                     (chunk_query no_format self c)))))
                     [(jan_2020, mar_2020)]))%nat.
Proof.
  intros self. eexists _, _. split.
  - vm_compute. reflexivity.
  - eapply (@searchFiles_appends_urls sample_catalog no_format self _
              [(jan_2020, mar_2020)] empty_world).
    + vm_compute. reflexivity.
    + vm_compute. reflexivity.
Defined.

Lemma searchFiles_prints_once_witness :
  let self := session jan_2020 jan_2022 box_40_20 in
  exists self' w' tchunks,
    timeChunks self = Returns tchunks /\
    @searchFiles sample_catalog no_format self empty_world = (Returns self', w') /\
    fs w' = fs empty_world /\
    stdout w' = stdout empty_world ++
                [if (1 <? length tchunks)%nat then MsgManyFiles else MsgSearching].
Proof.
  intros self. eexists _, _, _. split; [vm_compute; reflexivity|]. split.
  - vm_compute. reflexivity.
  - eapply (@searchFiles_prints_once sample_catalog no_format self).
    + vm_compute. reflexivity.
    + vm_compute. reflexivity.
Defined.

Lemma searchFiles_twice_witness :
  let self := session jan_2020 mar_2020 box_40_20 in
  exists self1 w1 self2 w2,
    @searchFiles sample_catalog no_format self empty_world = (Returns self1, w1) /\
    @searchFiles sample_catalog no_format self1 w1 = (Returns self2, w2) /\
    fileURLs self2 =
      fileURLs self ++ @chunk_urls sample_catalog no_format self [(jan_2020, mar_2020)]
                    ++ @chunk_urls sample_catalog no_format self [(jan_2020, mar_2020)] /\
    calls w2 =
      calls empty_world
        ++ flat_map (@chunk_calls sample_catalog no_format self) [(jan_2020, mar_2020)]
        ++ flat_map (@chunk_calls sample_catalog no_format self) [(jan_2020, mar_2020)].
Proof.
  apply (@searchFiles_twice sample_catalog no_format
           (session jan_2020 mar_2020 box_40_20) [(jan_2020, mar_2020)] empty_world).
  vm_compute. reflexivity.
Defined.

(** ** More on the URL list writer *)

Lemma dumpURLs_writes_witness :
  let self := set_fileURLs (session jan_2020 mar_2020 box_40_20) ["u1"; "u2"] in
  let w := {| fs := {["urls.txt" := File "old"]}; stdout := []; calls := [] |} in
  dumpURLs self "urls.txt" true w =
  (Returns tt, {| fs := <["urls.txt" := File (url_lines ["u1"; "u2"])]> (fs w);
                  stdout := stdout w; calls := calls w |}).
Proof.
  apply (dumpURLs_writes
           (set_fileURLs (session jan_2020 mar_2020 box_40_20) ["u1"; "u2"])
           "urls.txt" true).
  - discriminate.
  - right. split; [reflexivity|]. exists "old". vm_compute. reflexivity.
Defined.

Lemma dumpURLs_directory_witness :
  let self := set_fileURLs (session jan_2020 mar_2020 box_40_20) ["u1"] in
  let w := {| fs := {["out" := Directory]}; stdout := []; calls := [] |} in
  dumpURLs self "out" true w = (Raises IOError, w).
Proof.
  apply (dumpURLs_directory
           (set_fileURLs (session jan_2020 mar_2020 box_40_20) ["u1"]) "out" true).
  - discriminate.
  - vm_compute. reflexivity.
Defined.

(** Writing lines touches the open file only. *)
Lemma write_lines_frame (fname p : string) (urls : list string) :
  p <> fname ->
  forall w : world, fs (snd (write_lines fname urls w)) !! p = fs w !! p.
Proof.
  intros Hp. induction urls as [|i rest IH]; intros w; [reflexivity|].
  simpl. unfold mbind, file_write.
  destruct (fs w !! fname) as [[content|]|]; try reflexivity.
  rewrite IH. cbn [fs]. apply lookup_insert_ne. congruence.
Qed.

(** X17.  Whatever happens, [dumpURLs] never touches a path other than
    its target: every other node of the file system is after the call
    what it was before. *)
Theorem dumpURLs_other_paths (self : searchLAADS) (fname p : string) (replace : bool)
    (w : world) :
  p <> fname ->
  fs (snd (dumpURLs self fname replace w)) !! p = fs w !! p.
Proof.
  intros Hp. unfold dumpURLs.
  destruct (length (fileURLs self) <? 1)%nat; [reflexivity|].
  unfold mbind at 1. unfold os_path_isfile.
  destruct (_ && negb replace); [reflexivity|].
  unfold mbind, open_w.
  destruct (fs w !! fname) as [[content|]|]; try reflexivity;
    rewrite write_lines_frame by exact Hp; cbn [fs]; apply lookup_insert_ne; congruence.
Qed.

Lemma dumpURLs_other_paths_witness :
  let self := set_fileURLs (session jan_2020 mar_2020 box_40_20) ["u1"] in
  let w := {| fs := {["other.txt" := File "kept"]}; stdout := []; calls := [] |} in
  fs (snd (dumpURLs self "urls.txt" true w)) !! "other.txt" = fs w !! "other.txt".
Proof.
  apply (dumpURLs_other_paths
           (set_fileURLs (session jan_2020 mar_2020 box_40_20) ["u1"])
           "urls.txt" "other.txt" true).
  discriminate.
Defined.

(** X18.  After a write that went through, a second [dumpURLs] on the
    same path without the overwrite flag is refused, whatever URLs the
    session then holds: it prints that the file exists, and the file
    keeps the lines of the first write. *)
Theorem dumpURLs_then_refused (self self' : searchLAADS) (fname : string)
    (replace : bool) (w w1 : world) :
  fileURLs self <> [] ->
  fileURLs self' <> [] ->
  fs w !! fname = None \/ (replace = true /\ exists content, fs w !! fname = Some (File content)) ->
  dumpURLs self fname replace w = (Returns tt, w1) ->
  fs w1 !! fname = Some (File (url_lines (fileURLs self))) /\
  dumpURLs self' fname false w1 =
  (Returns tt, {| fs := fs w1; stdout := stdout w1 ++ [MsgFileExists]; calls := calls w1 |}).
Proof.
  intros Hurls Hurls' Hpath Hrun.
  rewrite (dumpURLs_writes_aux self fname replace w Hurls Hpath) in Hrun.
  injection Hrun as <-. cbn [fs stdout calls].
  assert (Hfile : <[fname := File (url_lines (fileURLs self))]> (fs w) !! fname
                  = Some (File (url_lines (fileURLs self)))) by apply lookup_insert_eq.
  split; [exact Hfile|].
  unfold dumpURLs. destruct (fileURLs self') as [|u urls]; [contradiction|].
  cbn [length Nat.ltb Nat.leb]. unfold mbind, os_path_isfile. cbn [fs].
  rewrite Hfile. reflexivity.
Qed.

Lemma dumpURLs_then_refused_witness :
  let self := set_fileURLs (session jan_2020 mar_2020 box_40_20) ["u1"; "u2"] in
  let self' := set_fileURLs (session jan_2020 mar_2020 box_40_20) ["u3"] in
  exists w1,
    dumpURLs self "urls.txt" false empty_world = (Returns tt, w1) /\
    fs w1 !! "urls.txt" = Some (File (url_lines (fileURLs self))) /\
    dumpURLs self' "urls.txt" false w1 =
    (Returns tt, {| fs := fs w1; stdout := stdout w1 ++ [MsgFileExists]; calls := calls w1 |}).
Proof.
  intros self self'. eexists. split.
  - vm_compute. reflexivity.
  - apply (dumpURLs_then_refused self self' "urls.txt" false empty_world).
    + discriminate.
    + discriminate.
    + left. vm_compute. reflexivity.
    + vm_compute. reflexivity.
Defined.

(** ** Where the downloads go: facts on the strings *)

Lemma str_rfind_ge (c : Ascii.ascii) (s : string) : -1 <= str_rfind c s.
Proof.
  induction s as [|a rest IH]; simpl; [lia|].
  destruct (Z.leb_spec 0 (str_rfind c rest)); [lia|]. destruct (Ascii.eqb a c); lia.
Qed.

Lemma str_rfind_has_char (c : Ascii.ascii) (s : string) :
  (0 <=? str_rfind c s) = has_char c s.
Proof.
  induction s as [|a rest IH]; simpl; [reflexivity|].
  rewrite <- IH. pose proof (str_rfind_ge c rest).
  destruct (Z.leb_spec 0 (str_rfind c rest)).
  - rewrite orb_true_r. apply Z.leb_le. lia.
  - rewrite orb_false_r. destruct (Ascii.eqb a c); reflexivity.
Qed.

(** The base name, by recursion on the path. *)
Lemma os_path_basename_cons (a : Ascii.ascii) (rest : string) :
  os_path_basename (String a rest) =
  if has_char slash rest then os_path_basename rest
  else if Ascii.eqb a slash then rest else String a rest.
Proof.
  unfold os_path_basename. simpl str_rfind.
  rewrite <- str_rfind_has_char. pose proof (str_rfind_ge slash rest).
  destruct (Z.leb_spec 0 (str_rfind slash rest)).
  - replace (Z.to_nat (str_rfind slash rest + 1 + 1))
      with (S (Z.to_nat (str_rfind slash rest + 1))) by lia.
    reflexivity.
  - destruct (Ascii.eqb a slash); reflexivity.
Qed.

Lemma os_path_basename_no_slash (p : string) :
  has_char slash p = false -> os_path_basename p = p.
Proof.
  destruct p as [|a rest]; [reflexivity|]. intros Hp.
  rewrite os_path_basename_cons. simpl in Hp. apply orb_false_iff in Hp.
  destruct Hp as [-> ->]. reflexivity.
Qed.

(** A base name holds no slash. *)
Lemma os_path_basename_has_no_slash (p : string) :
  has_char slash (os_path_basename p) = false.
Proof.
  induction p as [|a rest IH]; [reflexivity|].
  rewrite os_path_basename_cons.
  destruct (has_char slash rest) eqn:Hrest; [exact IH|].
  destruct (Ascii.eqb a slash) eqn:Ha; [exact Hrest|].
  simpl. rewrite Ha, Hrest. reflexivity.
Qed.

Lemma has_char_app (c : Ascii.ascii) (a b : string) :
  has_char c (a +:+ b) = has_char c a || has_char c b.
Proof.
  induction a as [|x a IH]; [reflexivity|].
  change (has_char c (String x (a +:+ b)) = has_char c (String x a) || has_char c b).
  simpl. rewrite IH, orb_assoc. reflexivity.
Qed.

(** The base name of a path that ends in a slash and a name. *)
Lemma os_path_basename_app (pre name : string) :
  has_char slash name = false ->
  os_path_basename (pre +:+ String slash name) = name.
Proof.
  intros Hname. induction pre as [|a pre IH].
  - change (os_path_basename (String slash name) = name).
    rewrite os_path_basename_cons, Hname. reflexivity.
  - change (os_path_basename (String a (pre +:+ String slash name)) = name).
    rewrite os_path_basename_cons, has_char_app. simpl has_char at 2.
    replace (Ascii.eqb slash slash) with true by (symmetry; apply Ascii.eqb_refl).
    rewrite orb_true_r. exact IH.
Qed.

Lemma str_split_nonempty (sep : Ascii.ascii) (s : string) : str_split sep s <> [].
Proof.
  destruct s as [|c rest]; simpl; [discriminate|].
  destruct (Ascii.eqb c sep); [discriminate|]. destruct (str_split sep rest); discriminate.
Qed.

Lemma str_split_no_sep (sep : Ascii.ascii) (s : string) :
  has_char sep s = false -> str_split sep s = [s].
Proof.
  induction s as [|c rest IH]; [reflexivity|]. simpl. intros Hs.
  apply orb_false_iff in Hs. destruct Hs as [-> Hrest]. rewrite (IH Hrest). reflexivity.
Qed.

Lemma str_split_app (sep : Ascii.ascii) (a b : string) :
  has_char sep a = false ->
  str_split sep (a +:+ String sep b) = a :: str_split sep b.
Proof.
  induction a as [|c a IH]; intros Ha.
  - change (str_split sep (String sep b) = EmptyString :: str_split sep b).
    simpl. rewrite Ascii.eqb_refl. reflexivity.
  - change (str_split sep (String c (a +:+ String sep b)) = String c a :: str_split sep b).
    simpl in Ha. apply orb_false_iff in Ha. destruct Ha as [Hc Ha].
    simpl. rewrite Hc, (IH Ha). reflexivity.
Qed.

(** A string splits in one piece exactly when it holds no separator. *)
Lemma str_split_second (sep : Ascii.ascii) (s : string) :
  str_split sep s !! 1%nat = None <-> has_char sep s = false.
Proof.
  induction s as [|c rest IH]; simpl; [split; reflexivity|].
  destruct (Ascii.eqb c sep) eqn:Hc; simpl.
  - pose proof (str_split_nonempty sep rest).
    destruct (str_split sep rest); [contradiction|]. split; discriminate.
  - destruct (str_split sep rest) as [|h t] eqn:Hsplit.
    + exfalso. exact (str_split_nonempty sep rest Hsplit).
    + simpl in *. exact IH.
Qed.

(** No piece of a split holds the separator, nor a character the
    string did not hold. *)
Lemma str_split_pieces (sep c : Ascii.ascii) (s : string) :
  (c = sep \/ has_char c s = false) ->
  Forall (fun piece => has_char c piece = false) (str_split sep s).
Proof.
  induction s as [|a rest IH]; intros Hc; simpl.
  - repeat constructor.
  - destruct (Ascii.eqb a sep) eqn:Ha.
    + constructor; [reflexivity|]. apply IH.
      destruct Hc as [-> | Hc]; [left; reflexivity|].
      right. simpl in Hc. apply orb_false_iff in Hc. tauto.
    + assert (Hac : Ascii.eqb a c = false).
      { destruct Hc as [-> | Hc]; [exact Ha|].
        simpl in Hc. apply orb_false_iff in Hc. tauto. }
      assert (IH' : Forall (fun piece => has_char c piece = false) (str_split sep rest)).
      { apply IH. destruct Hc as [-> | Hc]; [left; reflexivity|].
        right. simpl in Hc. apply orb_false_iff in Hc. tauto. }
      destruct (str_split sep rest) as [|h t]; [repeat constructor; simpl; rewrite Hac; reflexivity|].
      inversion IH' as [|? ? Hh Ht]; subst.
      constructor; [simpl; rewrite Hac, Hh; reflexivity | exact Ht].
Qed.

Lemma has_char_substring (c : Ascii.ascii) (s : string) :
  has_char c s = false ->
  forall i n : nat, has_char c (String.substring i n s) = false.
Proof.
  induction s as [|a rest IH]; intros Hs i n.
  - destruct i, n; reflexivity.
  - simpl in Hs. apply orb_false_iff in Hs. destruct Hs as [Ha Hrest].
    destruct i as [|i]; [destruct n as [|n]|]; simpl.
    + reflexivity.
    + rewrite Ha. exact (IH Hrest 0%nat n).
    + exact (IH Hrest i n).
Qed.

Lemma length_substring (s : string) :
  forall i n : nat, (String.length (String.substring i n s) <= n)%nat.
Proof.
  induction s as [|a rest IH]; intros i n.
  - destruct i, n; simpl; lia.
  - destruct i as [|i]; [destruct n as [|n]|]; simpl.
    + lia.
    + pose proof (IH 0%nat n). lia.
    + exact (IH i n).
Qed.

Lemma substring_prefix (y d : string) :
  String.substring 0 (String.length y) (y +:+ d) = y.
Proof.
  induction y as [|a y IH].
  - destruct d; reflexivity.
  - change (String.substring 0 (S (String.length y)) (String a (y +:+ d)) = String a y).
    simpl. rewrite IH. reflexivity.
Qed.

Lemma os_path_join_relative (a b : string) :
  str_startswith slash b = false ->
  os_path_join a b = a +:+ b \/ os_path_join a b = a +:+ String slash b.
Proof.
  intros Hb. unfold os_path_join. rewrite Hb.
  destruct (str_empty a || str_endswith slash a); [left | right]; reflexivity.
Qed.

Lemma str_startswith_has_char (c : Ascii.ascii) (s : string) :
  has_char c s = false -> str_startswith c s = false.
Proof.
  destruct s as [|a rest]; [reflexivity|]. simpl. intros Hs.
  apply orb_false_iff in Hs. tauto.
Qed.

Lemma str_endswith_has_char (c : Ascii.ascii) (s : string) :
  has_char c s = false -> str_endswith c s = false.
Proof.
  induction s as [|a rest IH]; [reflexivity|]. simpl. intros Hs.
  apply orb_false_iff in Hs. destruct Hs as [Ha Hrest].
  destruct rest; [exact Ha | exact (IH Hrest)].
Qed.

Lemma str_endswith_app (c x : Ascii.ascii) (a b : string) :
  str_endswith c (a +:+ String x b) = str_endswith c (String x b).
Proof.
  induction a as [|y a IH]; [reflexivity|].
  change (str_endswith c (String y (a +:+ String x b)) = str_endswith c (String x b)).
  rewrite <- IH. destruct a; reflexivity.
Qed.

Lemma str_empty_app (a b : string) : str_empty a = false -> str_empty (a +:+ b) = false.
Proof. destruct a; [discriminate | reflexivity]. Qed.

(** ** Properties of the download paths *)

Lemma pathTuple_IndexError_aux (directory url : string) :
  pathTuple directory url = RaisesIndexError <->
  has_char dot (os_path_basename url) = false.
Proof.
  unfold pathTuple. rewrite <- str_split_second.
  destruct (str_split dot (os_path_basename url) !! 1%nat); split;
    (reflexivity || discriminate).
Qed.

(** X19.  [pathTuple] raises [IndexError] exactly on the URLs whose file
    name, the part after the last slash, holds no dot. *)
Theorem pathTuple_IndexError_iff (directory url : string) :
  pathTuple directory url = RaisesIndexError <->
  has_char dot (os_path_basename url) = false.
Proof.
  unfold pathTuple. rewrite <- str_split_second.
  destruct (str_split dot (os_path_basename url) !! 1%nat); split;
    (reflexivity || discriminate).
Qed.

(** X20.  The directory [pathTuple] picks is the base directory followed
    by at most four characters that hold neither a slash nor a dot, put
    right after the base directory or after one slash: a file never goes
    above the base directory nor deeper than one level under it. *)
Theorem pathTuple_under_directory (directory url u outdir : string) :
  pathTuple directory url = Fine (u, outdir) ->
  u = url /\
  exists year,
    (String.length year <= 4)%nat /\
    has_char slash year = false /\ has_char dot year = false /\
    (outdir = directory +:+ year \/ outdir = directory +:+ String slash year).
Proof.
  unfold pathTuple.
  destruct (str_split dot (os_path_basename url) !! 1%nat) as [secfield|] eqn:Hsec;
    [|discriminate].
  intros [= <- <-]. split; [reflexivity|].
  exists (str_slice 1 5 secfield).
  assert (Hpiece : forall c, (c = dot \/ has_char c (os_path_basename url) = false) ->
                             has_char c secfield = false).
  { intros c Hc. pose proof (str_split_pieces dot c _ Hc) as Hall.
    rewrite Forall_forall in Hall. apply Hall.
    eapply list_elem_of_lookup_2. exact Hsec. }
  assert (Hslash : has_char slash (str_slice 1 5 secfield) = false).
  { apply has_char_substring, Hpiece. right. apply os_path_basename_has_no_slash. }
  repeat split.
  - apply length_substring.
  - exact Hslash.
  - apply has_char_substring, Hpiece. left. reflexivity.
  - apply os_path_join_relative, str_startswith_has_char, Hslash.
Qed.

Lemma pathTuple_under_directory_witness :
  "ftp://host/6/MOD35_L2.A2016001.0000.006.hdf" = "ftp://host/6/MOD35_L2.A2016001.0000.006.hdf" /\
  exists year,
    (String.length year <= 4)%nat /\
    has_char slash year = false /\ has_char dot year = false /\
    ("/data/2016" = "/data" +:+ year \/ "/data/2016" = "/data" +:+ String slash year).
Proof.
  apply (pathTuple_under_directory "/data" "ftp://host/6/MOD35_L2.A2016001.0000.006.hdf").
  vm_compute. reflexivity.
Defined.

(** X21.  For a file named as the archive names its files, a product
    without dot, a dot, one letter, four characters of year, the day,
    and then nothing or a dot and more, [pathTuple] sends the file to
    the base directory, a slash, the year; and [download] writes it
    there under its own name. *)
Theorem pathTuple_archive_name (directory site prod year doy tail : string)
    (a : Ascii.ascii) :
  has_char slash prod = false -> has_char dot prod = false ->
  Ascii.eqb a slash = false -> Ascii.eqb a dot = false ->
  has_char slash year = false -> has_char dot year = false ->
  has_char slash doy = false -> has_char dot doy = false ->
  has_char slash tail = false ->
  (tail = EmptyString \/ str_startswith dot tail = true) ->
  String.length year = 4%nat ->
  str_empty directory = false -> str_endswith slash directory = false ->
  let name := prod +:+ String dot (String a (year +:+ doy) +:+ tail) in
  let url := site +:+ String slash name in
  pathTuple directory url = Fine (url, directory +:+ String slash year) /\
  download_fpath (url, directory +:+ String slash year) =
    (directory +:+ String slash year) +:+ String slash name.
Proof.
  intros Hps Hpd Has Had Hys Hyd Hds Hdd Hts Htail Hlen Hdir Hdir' name url.
  assert (Hname : has_char slash name = false).
  { subst name. rewrite has_char_app. simpl has_char.
    change (has_char slash (String a (year +:+ doy) +:+ tail))
      with (Ascii.eqb a slash || has_char slash ((year +:+ doy) +:+ tail)).
    rewrite !has_char_app, Hps, Has, Hys, Hds, Hts. reflexivity. }
  assert (Hbase : os_path_basename url = name)
    by (subst url; apply os_path_basename_app; exact Hname).
  assert (Hsec : has_char dot (String a (year +:+ doy)) = false).
  { simpl. rewrite Had, has_char_app, Hyd, Hdd. reflexivity. }
  assert (Hsplit : str_split dot name !! 1%nat = Some (String a (year +:+ doy))).
  { assert (Hrest : exists t, str_split dot (String a (year +:+ doy) +:+ tail)
                              = String a (year +:+ doy) :: t).
    { destruct Htail as [-> | Htail].
      - rewrite string_app_nil_r, (str_split_no_sep dot _ Hsec). eexists. reflexivity.
      - destruct tail as [|t tail']; [discriminate|]. simpl in Htail.
        apply Ascii.eqb_eq in Htail. subst t.
        rewrite (str_split_app dot _ _ Hsec). eexists. reflexivity. }
    destruct Hrest as [t Ht].
    subst name. rewrite (str_split_app dot prod _ Hpd), Ht. reflexivity. }
  assert (Hyear : str_slice 1 5 (String a (year +:+ doy)) = year).
  { unfold str_slice. simpl. rewrite <- Hlen at 1. apply substring_prefix. }
  split.
  - unfold pathTuple. rewrite Hbase, Hsplit, Hyear. unfold os_path_join.
    rewrite (str_startswith_has_char _ _ Hys), Hdir, Hdir'. reflexivity.
  - unfold download_fpath. cbn [fst snd]. rewrite Hbase. unfold os_path_join.
    rewrite (str_startswith_has_char _ _ Hname).
    rewrite (str_empty_app _ _ Hdir), str_endswith_app.
    assert (Hend : str_endswith slash (String slash year) = false).
    { destruct year as [|y year']; [discriminate|].
      change (str_endswith slash (String slash (String y year')))
        with (str_endswith slash (String y year')).
      apply str_endswith_has_char. exact Hys. }
    rewrite Hend. reflexivity.
Qed.

Lemma pathTuple_archive_name_witness :
  let name := "MOD35_L2" +:+ String dot (String (Ascii.ascii_of_nat 65) ("2016" +:+ "001")
                                         +:+ ".0000.006.hdf") in
  let url := "ftp://host/6" +:+ String slash name in
  pathTuple "/data" url = Fine (url, "/data" +:+ String slash "2016") /\
  download_fpath (url, "/data" +:+ String slash "2016") =
    ("/data" +:+ String slash "2016") +:+ String slash name.
Proof.
  apply (pathTuple_archive_name "/data" "ftp://host/6" "MOD35_L2" "2016" "001"
           ".0000.006.hdf" (Ascii.ascii_of_nat 65)); try reflexivity.
  right. reflexivity.
Defined.

(** X22.  The list of pairs is made before any download starts, and it
    is all or nothing: it raises [IndexError] exactly when the file name
    of some URL holds no dot, and otherwise it holds the URLs of the
    session, all of them, once each and in their order. *)
Theorem pathList_all_or_nothing (directory : string) (urls : list string) :
  (pathList directory urls = RaisesIndexError <->
   Exists (fun url => has_char dot (os_path_basename url) = false) urls) /\
  (forall l, pathList directory urls = Fine l -> map fst l = urls).
Proof.
  induction urls as [|url rest [IHraise IHfine]]; simpl.
  - split; [split; [discriminate | intros Hex; inversion Hex]|].
    intros l [= <-]. reflexivity.
  - pose proof (pathTuple_IndexError_aux directory url) as Hiff.
    destruct (pathTuple directory url) as [[u outdir]|] eqn:Htuple.
    + assert (Hu : u = url).
      { unfold pathTuple in Htuple.
        destruct (str_split dot (os_path_basename url) !! 1%nat); [|discriminate].
        injection Htuple as <- _. reflexivity. }
      assert (Hdot : has_char dot (os_path_basename url) <> false).
      { intros Hd. apply Hiff in Hd. discriminate. }
      destruct (pathList directory rest) as [l'|] eqn:Hrest.
      * split.
        -- split; [discriminate|]. intros Hex. inversion Hex as [? ? Hd | ? ? Hd]; subst.
           ++ contradiction.
           ++ apply IHraise in Hd. discriminate.
        -- intros l [= <-]. simpl. rewrite Hu, (IHfine l' eq_refl). reflexivity.
      * split; [|discriminate].
        split; [|reflexivity]. intros _. apply Exists_cons_tl, IHraise. reflexivity.
    + split; [|discriminate].
      split; [|reflexivity]. intros _. apply Exists_cons_hd, Hiff. reflexivity.
Qed.

(** ** A search and then a dump *)

(** X23.  A search on a session without URLs followed by a dump to a
    free path leaves there a file with every resolved URL, a line each,
    in the order of the chunks; when the server resolved nothing, the
    dump creates no file and prints that there is nothing to write. *)
Theorem searchFiles_then_dumpURLs `{Server} (strftime : datetime -> string)
    (self : searchLAADS) (tchunks : list chunk) (fname : string) (w : world) :
  timeChunks self = Returns tchunks ->
  fileURLs self = [] ->
  fs w !! fname = None ->
  exists self' w1,
    searchFiles strftime self w = (Returns self', w1) /\
    dumpURLs self' fname false w1 =
    (Returns tt,
     match chunk_urls strftime self tchunks with
     | [] => {| fs := fs w; stdout := stdout w1 ++ [MsgNoURLs]; calls := calls w1 |}
     | urls => {| fs := <[fname := File (url_lines urls)]> (fs w);
                  stdout := stdout w1; calls := calls w1 |}
     end).
Proof.
  intros Hplan Hurls Hfree.
  eexists _, _. split; [exact (searchFiles_run strftime self tchunks w Hplan)|].
  rewrite Hurls. cbn [app].
  destruct (chunk_urls strftime self tchunks) as [|u urls] eqn:Eurls.
  - reflexivity.
  - rewrite dumpURLs_writes_aux.
    + reflexivity.
    + cbn [fileURLs set_fileURLs]. discriminate.
    + left. exact Hfree.
Qed.

Lemma searchFiles_then_dumpURLs_witness :
  let self := session jan_2020 mar_2020 box_40_20 in
  exists self' w1,
    @searchFiles sample_catalog no_format self empty_world = (Returns self', w1) /\
    dumpURLs self' "urls.txt" false w1 =
    (Returns tt,
     match @chunk_urls sample_catalog no_format self [(jan_2020, mar_2020)] with
     | [] => {| fs := fs empty_world; stdout := stdout w1 ++ [MsgNoURLs]; calls := calls w1 |}
     | urls => {| fs := <["urls.txt" := File (url_lines urls)]> (fs empty_world);
                  stdout := stdout w1; calls := calls w1 |}
     end).
Proof.
  apply (@searchFiles_then_dumpURLs sample_catalog no_format
           (session jan_2020 mar_2020 box_40_20) [(jan_2020, mar_2020)] "urls.txt" empty_world).
  - vm_compute. reflexivity.
  - reflexivity.
  - vm_compute. reflexivity.
Defined.
